(** * py2pddl: the interactive skeleton generator [py2pddl/init.py]

    A shallow embedding of the function [init] and of the Python string
    methods it calls, followed by the properties of the generated skeleton.

    Text is modelled as [list ascii], a character being a code point below
    256 (the Latin-1 range of Unicode).  On that range the white-space
    class, the cased characters and the case mappings below are those of
    Python's [str], with one gap: the upper-case forms of the micro sign
    (181) and of y with diaeresis (255) lie beyond 255, and the model leaves
    these two characters as they are.  Code points from 256 on are not
    modelled.  The properties that depend on a case mapping say on which
    characters they hold. *)

From Stdlib Require Import List Ascii String Bool Arith Lia.
Import ListNotations.

Set Implicit Arguments.

(* ===================================================================== *)
(** * Text *)
(* ===================================================================== *)

Definition str := list ascii.

(** A literal of the source. *)
Definition lit (s : string) : str := list_ascii_of_string s.

Definition nl : ascii := "010"%char.
Definition dq : ascii := "034"%char.
Definition space : ascii := " "%char.

(** The newline string and the triple quote of the source. *)
Definition NL : str := [nl].
Definition DQ3 : str := [dq; dq; dq].

Module Py.

(** ** Character classes and case mappings of [str], below 256 *)

Definition code (c : ascii) : nat := nat_of_ascii c.

Definition in_range (lo hi : nat) (c : ascii) : bool :=
  (lo <=? code c) && (code c <=? hi).

Definition is_ascii (c : ascii) : bool := code c <? 128.

(** [str.isspace] on one character: TAB..CR, FS..US, the space, the next
    line control (133) and the no-break space (160). *)
Definition isspace (c : ascii) : bool :=
  in_range 9 13 c || in_range 28 32 c || (code c =? 133) || (code c =? 160).

(** The ASCII capital letters and the ASCII small letters. *)
Definition isupper (c : ascii) : bool := in_range 65 90 c.
Definition islower (c : ascii) : bool := in_range 97 122 c.

(** The characters that have a lower-case form: A..Z and the capitals
    192..222 but the multiplication sign (215). *)
Definition has_lower (c : ascii) : bool :=
  in_range 65 90 c || (in_range 192 222 c && negb (code c =? 215)).

(** The characters that have a one-character upper-case form below 256:
    a..z and the small letters 224..254 but the division sign (247). *)
Definition has_upper (c : ascii) : bool :=
  in_range 97 122 c || (in_range 224 254 c && negb (code c =? 247)).

(** A cased character: the letters above, the sharp s (223), the micro
    sign (181), y with diaeresis (255) and the two ordinal indicators
    (170, 186). *)
Definition iscased (c : ascii) : bool :=
  in_range 65 90 c || in_range 97 122 c ||
  (code c =? 170) || (code c =? 181) || (code c =? 186) ||
  (in_range 192 255 c && negb (code c =? 215) && negb (code c =? 247)).

Definition upper_char (c : ascii) : ascii :=
  if has_upper c then ascii_of_nat (code c - 32) else c.

Definition lower_char (c : ascii) : ascii :=
  if has_lower c then ascii_of_nat (code c + 32) else c.

(** [str.upper] and [str.title] of a string of one character: one
    character, but for the sharp s, which gives [SS] and [Ss]. *)
Definition upper_str (c : ascii) : str :=
  if code c =? 223 then ["S"%char; "S"%char] else [upper_char c].

Definition title_str (c : ascii) : str :=
  if code c =? 223 then ["S"%char; "s"%char] else [upper_char c].

(** ** [str.upper], [str.lower], [str.title] *)

Definition upper (s : str) : str := flat_map upper_str s.
Definition lower (s : str) : str := map lower_char s.

(** [str.title]: a character is title-cased when the character before it
    is not cased (or there is none) and lowercased when it is. *)
Fixpoint title_from (previous_is_cased : bool) (s : str) : str :=
  match s with
  | [] => []
  | c :: s' =>
      (if previous_is_cased then [lower_char c] else title_str c)
        ++ title_from (iscased c) s'
  end.

Definition title (s : str) : str := title_from false s.

(** ** [str.lstrip], [str.rstrip] with no argument *)

Fixpoint lstrip (s : str) : str :=
  match s with
  | [] => []
  | c :: s' => if isspace c then lstrip s' else s
  end.

Definition rstrip (s : str) : str := rev (lstrip (rev s)).

(** ** [str.split(sep)] with a one-character separator

    Every occurrence of the separator ends a token, so that adjacent
    separators and the empty string give empty tokens. *)
Fixpoint split (sep : ascii) (s : str) : list str :=
  match s with
  | [] => [[]]
  | c :: s' =>
      if Ascii.eqb c sep then [] :: split sep s'
      else match split sep s' with
           | tok :: toks => (c :: tok) :: toks
           | [] => [[c]]
           end
  end.

(** ** [sep.join(parts)] *)
Fixpoint join (sep : str) (parts : list str) : str :=
  match parts with
  | [] => []
  | p :: rest =>
      match rest with
      | [] => p
      | _ :: _ => p ++ sep ++ join sep rest
      end
  end.

(** ** Indexing and slicing: [s[0]] raises on the empty string, [s[1:]]
    never does. *)
Definition index0 (s : str) : option str :=
  match s with
  | [] => None
  | c :: _ => Some [c]
  end.

Definition slice_from (n : nat) (s : str) : str := skipn n s.

End Py.

(* ===================================================================== *)
(** * The sections of the skeleton

    Each definition is the local variable of [init] with the same name, as a
    function of the variables its f-string mentions. *)
(* ===================================================================== *)

Definition domain_header (class_name : str) : str :=
  lit "from py2pddl import Domain, create_type, create_objs" ++ NL ++
  lit "from py2pddl import predicate, action, goal, init" ++ NL ++
  NL ++
  NL ++
  lit "class " ++ class_name ++ lit "Domain(Domain):" ++ NL.

Definition type_decl (typ : str) : str :=
  lit "    " ++ typ ++ lit " = create_type(" ++ [dq] ++ typ ++ [dq] ++ lit ")" ++ NL.

Definition section_types (types : list str) : str :=
  Py.join [] (map type_decl types).

Definition predicate_block (predicate : str) : str :=
  lit "    @predicate(...)" ++ NL ++
  lit "    def " ++ predicate ++ lit "(self):" ++ NL ++
  lit "        " ++ DQ3 ++ lit "Complete the method signature" ++ DQ3 ++ NL.

Definition section_predicate (predicates : list str) : str :=
  Py.join NL (map predicate_block predicates).

Definition action_block (action : str) : str :=
  lit "    @action(...)" ++ NL ++
  lit "    def " ++ action ++ lit "(self):" ++ NL ++
  lit "        " ++ DQ3 ++ lit "This should be a pass" ++ DQ3 ++ NL ++
  lit "        precond: list = None  # to fill in" ++ NL ++
  lit "        effect: list = None  # to fill in" ++ NL ++
  lit "        return precond, effect" ++ NL.

Definition section_action (actions : list str) : str :=
  Py.join NL (map action_block actions).

Definition problem_header (class_name : str) : str :=
  NL ++
  lit "class " ++ class_name ++ lit "Problem(" ++ class_name ++ lit "Domain):" ++ NL.

Definition section_object : str :=
  lit "    def __init__(self):" ++ NL ++
  lit "        " ++ DQ3 ++ lit "To fill in" ++ DQ3 ++ NL.

Definition section_init : str :=
  lit "    @init" ++ NL ++
  lit "    def init(self) -> list:" ++ NL ++
  lit "        # To fill in" ++ NL ++
  lit "        # Return type is a list" ++ NL ++
  lit "        return None" ++ NL.

Definition section_goal : str :=
  lit "    @goal" ++ NL ++
  lit "    def goal(self) -> list:" ++ NL ++
  lit "        # To fill in" ++ NL ++
  lit "        # Return type is a list" ++ NL ++
  lit "        return None" ++ NL.

Definition template (class_name : str) (types predicates actions : list str) : str :=
  domain_header class_name ++ NL ++ section_types types ++ NL ++
  section_predicate predicates ++ NL ++ section_action actions ++
  NL ++ problem_header class_name ++ NL ++ section_object ++
  NL ++ section_init ++ NL ++ section_goal.

(* ===================================================================== *)
(** * The world [init] runs in *)
(* ===================================================================== *)

(** The exceptions a run can end with. *)
Inductive exn : Type :=
| FileExistsError (msg : str)
| IndexError (msg : str)
| EOFError (msg : str)
| OSError.

Definition exn_class (e : exn) : string :=
  match e with
  | FileExistsError _ => "FileExistsError"
  | IndexError _ => "IndexError"
  | EOFError _ => "EOFError"
  | OSError => "OSError"
  end.

Inductive node : Type :=
| File (content : str)
| Directory.

(** What the terminal has shown. *)
Inductive event : Type :=
| Prompted (text : str)
| Printed (text : str).

(** [fs]: the file system, by path.  [stdin]: the lines still to be read.
    [stdout]: what was shown so far, oldest first.  [openable] and [room]
    describe the storage layer: which paths can be opened for writing, and
    how many characters it still accepts ([None]: no limit).  [buffer] and
    [held] describe the open file object: the length up to which it holds a
    text back until it is closed, and the text it holds. *)
Record World : Type := mkWorld {
  fs : str -> option node;
  stdin : list str;
  stdout : list event;
  openable : str -> bool;
  room : option nat;
  buffer : nat;
  held : str
}.

Fixpoint eqb_str (a b : str) : bool :=
  match a, b with
  | [], [] => true
  | x :: a', y :: b' => Ascii.eqb x y && eqb_str a' b'
  | _, _ => false
  end.

Definition store (p : str) (n : node) (files : str -> option node) : str -> option node :=
  fun q => if eqb_str q p then Some n else files q.

Definition set_fs (files : str -> option node) (w : World) : World :=
  mkWorld files (stdin w) (stdout w) (openable w) (room w) (buffer w) (held w).

Definition set_stdin (lines : list str) (w : World) : World :=
  mkWorld (fs w) lines (stdout w) (openable w) (room w) (buffer w) (held w).

Definition show (e : event) (w : World) : World :=
  mkWorld (fs w) (stdin w) (stdout w ++ [e]) (openable w) (room w) (buffer w) (held w).

Definition set_held (text : str) (w : World) : World :=
  mkWorld (fs w) (stdin w) (stdout w) (openable w) (room w) (buffer w) text.

(** ** Computations: a state and exception monad over the world.  The
    effects made before an exception stay. *)

Definition M (A : Type) : Type := World -> (exn + A) * World.

Definition ret {A : Type} (a : A) : M A := fun w => (inr a, w).

Definition raise {A : Type} (e : exn) : M A := fun w => (inl e, w).

Definition bind {A B : Type} (m : M A) (k : A -> M B) : M B :=
  fun w =>
    match m w with
    | (inl e, w') => (inl e, w')
    | (inr a, w') => k a w'
    end.

Notation "x <- m ;; k" := (bind m (fun x => k))
  (at level 61, m at next level, right associativity).
Notation "m ;;; k" := (bind m (fun _ => k))
  (at level 61, right associativity).

(** [Path(filename).exists()] *)
Definition path_exists (p : str) : M bool :=
  fun w => (inr (match fs w p with Some _ => true | None => false end), w).

(** [input(prompt)]: shows the prompt, then reads one line. *)
Definition input (prompt : str) : M str :=
  fun w =>
    let w' := show (Prompted prompt) w in
    match stdin w' with
    | [] => (inl (EOFError (lit "EOF when reading a line")), w')
    | line :: rest => (inr line, set_stdin rest w')
    end.

(** [s[0]] *)
Definition first_char (s : str) : M str :=
  match Py.index0 s with
  | Some c => ret c
  | None => raise (IndexError (lit "string index out of range"))
  end.

(** [open(filename, "w")]: creates the file, or empties it; the file
    object holds nothing yet. *)
Definition open_w (p : str) : M str :=
  fun w =>
    if openable w p
    then (inr p, set_held [] (set_fs (store p (File []) (fs w)) w))
    else (inl OSError, w).

(** The text [data] goes from the file object to the storage layer: when
    the storage layer has no room for all of it, what fits is written and
    the call raises. *)
Definition put (f : str) (data : str) : M unit :=
  fun w =>
    match room w with
    | None => (inr tt, set_fs (store f (File data) (fs w)) w)
    | Some k =>
        if List.length data <=? k
        then (inr tt, set_fs (store f (File data) (fs w)) w)
        else (inl OSError, set_fs (store f (File (firstn k data)) (fs w)) w)
    end.

(** [f.write(data)]: a text that fits the buffer is held back; a longer
    one goes to the storage layer at once. *)
Definition write (f : str) (data : str) : M unit :=
  fun w =>
    if List.length (held w ++ data) <=? buffer w
    then (inr tt, set_held (held w ++ data) w)
    else put f (held w ++ data) (set_held [] w).

(** Closing the file: the text held back goes to the storage layer. *)
Definition close (f : str) : M unit :=
  fun w =>
    match held w with
    | [] => (inr tt, w)
    | _ :: _ => put f (held w) (set_held [] w)
    end.

(** [with open(p, "w") as f: body]: the file is closed when the body
    ends, also when it raises; an exception of the closing is the one the
    block raises. *)
Definition with_open_w (p : str) (body : str -> M unit) : M unit :=
  f <- open_w p ;;
  fun w =>
    match body f w with
    | (r, w') =>
        match close f w' with
        | (inl e, w'') => (inl e, w'')
        | (inr _, w'') => (r, w'')
        end
    end.

Definition print (text : str) : M unit :=
  fun w => (inr tt, show (Printed text) w).

(* ===================================================================== *)
(** * [init] *)
(* ===================================================================== *)

(** The four blocks of [init] that question the user, in the order and
    under the comments of the source: Name, Types, Predicates, Actions. *)

Definition ask_name : M str :=
  class_name <- input (lit "Name: ") ;;
  let class_name := Py.rstrip (Py.lstrip class_name) in
  initial <- first_char class_name ;;
  ret (Py.upper initial ++ Py.slice_from 1 class_name).

Definition ask_types : M (list str) :=
  user_types <- input (lit "Types (separated by space): ") ;;
  let user_types := Py.rstrip (Py.lstrip user_types) in
  ret (map Py.title (Py.split space user_types)).

Definition ask_predicates : M (list str) :=
  user_predicates <- input (lit "Predicates (separated by space): ") ;;
  let user_predicates := Py.rstrip (Py.lstrip user_predicates) in
  ret (map Py.lower (Py.split space user_predicates)).

Definition ask_actions : M (list str) :=
  user_actions <- input (lit "Actions (separated by space): ") ;;
  let user_actions := Py.rstrip (Py.lstrip user_actions) in
  ret (map Py.lower (Py.split space user_actions)).

Definition file_exists_message : str :=
  lit "This file already exists. Use a different filename.".

Definition init (filename : str) : M unit :=
  already <- path_exists filename ;;
  if already
  then raise (FileExistsError file_exists_message)
  else
    class_name <- ask_name ;;
    types <- ask_types ;;
    predicates <- ask_predicates ;;
    actions <- ask_actions ;;
    with_open_w filename (fun f =>
      write f (template class_name types predicates actions) ;;;
      print (lit "File written to " ++ filename)).

(** The values [init] derives from the four answers, named after its local
    variables. *)
Definition strip (s : str) : str := Py.rstrip (Py.lstrip s).

Definition class_name_of (answer : str) : str :=
  Py.upper (firstn 1 (strip answer)) ++ Py.slice_from 1 (strip answer).

Definition types_of (answer : str) : list str :=
  map Py.title (Py.split space (strip answer)).

Definition predicates_of (answer : str) : list str :=
  map Py.lower (Py.split space (strip answer)).

Definition actions_of (answer : str) : list str :=
  map Py.lower (Py.split space (strip answer)).

Definition skeleton (name types predicates actions : str) : str :=
  template (class_name_of name) (types_of types)
           (predicates_of predicates) (actions_of actions).

(* ===================================================================== *)
(** * Vocabulary of the properties *)
(* ===================================================================== *)

(** The lines of a text: every newline ends a line, and a last line needs
    none (the lines [str.splitlines] gives for a text whose only line
    breaks are newlines). *)
Fixpoint text_lines (s : str) : list str :=
  match s with
  | [] => []
  | c :: s' =>
      if Ascii.eqb c nl then [] :: text_lines s'
      else match text_lines s' with
           | [] => [[c]]
           | l :: ls => (c :: l) :: ls
           end
  end.

(** A line read by [input] holds no newline. *)
Definition nl_freeb (s : str) : bool :=
  forallb (fun c => negb (Ascii.eqb c nl)) s.

Definition nl_free (s : str) : Prop := nl_freeb s = true.

Definition all_nl_free (tokens : list str) : Prop :=
  forallb nl_freeb tokens = true.

(** A text that is empty or ends with a newline. *)
Fixpoint terminated (s : str) : bool :=
  match s with
  | [] => true
  | c :: s' =>
      match s' with
      | [] => Ascii.eqb c nl
      | _ :: _ => terminated s'
      end
  end.

(** Groups of lines put one after the other with [sep] between them. *)
Fixpoint intercalate (sep : list str) (groups : list (list str)) : list str :=
  match groups with
  | [] => []
  | g :: rest =>
      match rest with
      | [] => g
      | _ :: _ => g ++ sep ++ intercalate sep rest
      end
  end.

Definition blank : str := [].

(** A group of lines that starts and ends with a line that is not blank. *)
Definition solid (ls : list str) : Prop :=
  hd blank ls <> blank /\ last ls blank <> blank.

(** In [ls], the group [a] is followed by exactly [n] blank lines and then
    by the group [b]. *)
Definition separated_by (n : nat) (a b ls : list str) : Prop :=
  exists pre post, ls = pre ++ a ++ repeat blank n ++ b ++ post.

Definition gap (n : nat) (a b ls : list str) : Prop :=
  solid a /\ solid b /\ separated_by n a b ls.

Fixpoint is_prefix (x ls : list str) : bool :=
  match x, ls with
  | [], _ => true
  | l :: x', l' :: ls' => eqb_str l l' && is_prefix x' ls'
  | _ :: _, [] => false
  end.

Fixpoint is_infix (x ls : list str) : bool :=
  is_prefix x ls ||
  match ls with
  | [] => false
  | _ :: ls' => is_infix x ls'
  end.

(** The text [part] occurs in the text [whole]. *)
Definition occurs_in (part whole : str) : Prop :=
  exists pre post, whole = pre ++ part ++ post.

(** How many lines of [ls] the test [f] accepts. *)
Definition count (f : str -> bool) (ls : list str) : nat :=
  List.length (filter f ls).

(** The lines by which the stubs are counted in the output: the two marker
    lines, and the lines of the shape of a type declaration. *)
Definition predicate_marker : str := lit "    @predicate(...)".
Definition action_marker : str := lit "    @action(...)".

Definition type_decl_line (typ : str) : str :=
  lit "    " ++ typ ++ lit " = create_type(" ++ [dq] ++ typ ++ [dq] ++ lit ")".

Definition is_type_decl (l : str) : bool :=
  let n := Nat.div2 (List.length l - 22) in
  eqb_str l (type_decl_line (firstn n (skipn 4 l))).

(** The line of [problem_header] that opens the class. *)
Definition problem_class_line (class_name : str) : str :=
  lit "class " ++ class_name ++ lit "Problem(" ++ class_name ++ lit "Domain):".

(** The three stubs that close the skeleton, as [template] lays them out. *)
Definition section_stubs : str :=
  section_object ++ NL ++ section_init ++ NL ++ section_goal.

(** ** The lines of the sections

    [unlines] ends each line with a newline.  The lines that depend on an
    answer are named; they are shown below to be the lines of the sections
    of the source. *)

Definition unlines (ls : list str) : str :=
  flat_map (fun l => l ++ NL) ls.

Definition domain_class_line (class_name : str) : str :=
  lit "class " ++ class_name ++ lit "Domain(Domain):".

Definition def_line (name : str) : str :=
  lit "    def " ++ name ++ lit "(self):".

Definition domain_header_lines (class_name : str) : list str :=
  firstn 4 (text_lines (domain_header [])) ++ [domain_class_line class_name].

Definition predicate_block_lines (predicate : str) : list str :=
  [predicate_marker; def_line predicate] ++ skipn 2 (text_lines (predicate_block [])).

Definition action_block_lines (action : str) : list str :=
  [action_marker; def_line action] ++ skipn 2 (text_lines (action_block [])).

Definition template_lines (class_name : str) (types predicates actions : list str)
  : list str :=
  domain_header_lines class_name ++ [blank] ++
  map type_decl_line types ++ [blank] ++
  intercalate [blank] (map predicate_block_lines predicates) ++ [blank] ++
  intercalate [blank] (map action_block_lines actions) ++ [blank] ++
  [blank; problem_class_line class_name] ++ [blank] ++
  text_lines section_stubs.

(** The last two characters of a line, last first. *)
Definition ending (l : str) : str := firstn 2 (rev l).

(** The world [w] once the file object is closed, the file system being
    [files]. *)
Definition closed_with (files : str -> option node) (w : World) : World :=
  mkWorld files (stdin w) (stdout w) (openable w) (room w) (buffer w) [].

(** The world after [prompt] was shown and one line was read. *)
Definition asked (prompt : str) (rest : list str) (w : World) : World :=
  set_stdin rest (show (Prompted prompt) w).

(** The world after the four questions were answered. *)
Definition questioned (rest : list str) (w : World) : World :=
  asked (lit "Actions (separated by space): ") rest
    (asked (lit "Predicates (separated by space): ") []
       (asked (lit "Types (separated by space): ") []
          (asked (lit "Name: ") [] w))).

(** A run that ends with an exception of class [cls]. *)
Definition raises (cls : string) (r : exn + unit) : Prop :=
  exists e, r = inl e /\ exn_class e = cls.

(** In a token, no cased character comes after one that is not cased. *)
Fixpoint cased_after_cased (previous_is_cased : bool) (s : str) : bool :=
  match s with
  | [] => true
  | c :: s' =>
      (negb (Py.iscased c) || previous_is_cased) && cased_after_cased (Py.iscased c) s'
  end.

Definition one_word (t : str) : bool :=
  match t with
  | [] => true
  | c :: t' => cased_after_cased (Py.iscased c) t'
  end.

(** A text of ASCII characters. *)
Definition ascii_text (s : str) : bool := forallb Py.is_ascii s.

(** The case rules of ASCII, on character codes: the letters are 65..90
    and 97..122, and the two cases of a letter are 32 apart. *)
Definition letter_code (n : nat) : bool :=
  ((65 <=? n) && (n <=? 90)) || ((97 <=? n) && (n <=? 122)).

Definition upper_code (n : nat) : nat :=
  if (97 <=? n) && (n <=? 122) then n - 32 else n.

Definition lower_code (n : nat) : nat :=
  if (65 <=? n) && (n <=? 90) then n + 32 else n.

(** In [t], the character at position [j] comes right after a letter. *)
Definition after_letter (t : str) (j : nat) : bool :=
  match j with
  | 0 => false
  | S k =>
      match nth_error t k with
      | Some p => letter_code (Py.code p)
      | None => false
      end
  end.

(** The code that title case gives to the character of code [n] at
    position [j] of the ASCII token [t]: lower case after a letter, upper
    case at the start and after any other character. *)
Definition title_code (t : str) (j : nat) (n : nat) : nat :=
  if after_letter t j then lower_code n else upper_code n.

(** The name question as C7 states it: the first character of the class
    name is the upper case of the first character of the trimmed answer
    [s], and the other characters are those of [s]. *)
Definition first_upper_rest_same (s class_name : str) : Prop :=
  firstn 1 class_name = Py.upper (firstn 1 s) /\
  skipn 1 class_name = skipn 1 s.

(** The name that begins with a sharp s (223), followed by [x]. *)
Definition sharp_s_name : str := ["223"%char; "x"%char].

(** The token made of a sharp s followed by [a]. *)
Definition sharp_s_token : str := ["223"%char; "a"%char].

(** The lines of a section are the lines of its blocks, with the lines
    [sep] between two blocks. *)
Definition blocks_separated_by (sep : list str) (block : str -> str)
           (section : list str -> str) (tokens : list str) : Prop :=
  text_lines (section tokens) =
    intercalate sep (map (fun t => text_lines (block t)) tokens).

(** A world in which [filename] is free, the four answers wait on the
    terminal with a name that is not blank, and the storage layer accepts
    the file. *)
Definition answered_with (filename name types predicates actions : str)
           (w : World) : Prop :=
  fs w filename = None /\
  (exists rest, stdin w = name :: types :: predicates :: actions :: rest) /\
  strip name <> [] /\
  openable w filename = true /\
  room w = None.

(** The file that a run of [init] leaves at [filename]. *)
Definition left_at (filename : str) (w : World) : option node :=
  fs (snd (init filename w)) filename.

(** The three ways a run of [init] can end, seen from the file system.
    [wrote_skeleton]: the destination was free, the four questions were
    answered and the destination holds the whole skeleton.
    [wrote_nothing]: the run raised and the file system is as it was.
    [write_failed]: the storage layer had room for [k] characters only, the
    run raised and the destination holds the first [k] characters of the
    skeleton. *)
Definition wrote_skeleton (filename : str) (w : World) : Prop :=
  fs w filename = None /\
  fst (init filename w) = inr tt /\
  exists name types predicates actions rest,
    stdin w = name :: types :: predicates :: actions :: rest /\
    strip name <> [] /\
    left_at filename w = Some (File (skeleton name types predicates actions)).

Definition wrote_nothing (filename : str) (w : World) : Prop :=
  (exists e, fst (init filename w) = inl e) /\
  fs (snd (init filename w)) = fs w.

Definition write_failed (filename : str) (w : World) : Prop :=
  fs w filename = None /\
  fst (init filename w) = inl OSError /\
  exists name types predicates actions rest k,
    stdin w = name :: types :: predicates :: actions :: rest /\
    room w = Some k /\
    k < List.length (skeleton name types predicates actions) /\
    left_at filename w =
      Some (File (firstn k (skeleton name types predicates actions))).

(** A run with no partial success: either the whole skeleton was written
    to a destination that was free, or the destination is as it was. *)
Definition all_or_nothing (filename : str) (w : World) : Prop :=
  wrote_skeleton filename w \/ left_at filename w = fs w filename.

(** ** Vocabulary of the further properties *)

(** A text made of white space only. *)
Definition all_space (s : str) : bool := forallb Py.isspace s.

(** A text that does not begin with white space. *)
Definition starts_clean (s : str) : bool :=
  match s with
  | [] => true
  | c :: _ => negb (Py.isspace c)
  end.

(** How many times the character [c] occurs in [s]. *)
Definition count_char (c : ascii) (s : str) : nat :=
  List.length (filter (Ascii.eqb c) s).

(** A text without upper-case letters. *)
Definition no_upper (s : str) : bool :=
  forallb (fun c => negb (Py.isupper c)) s.

(** A text in title case: no lower-case letter at the start or after a
    character that is not a letter, no upper-case letter after a letter. *)
Fixpoint title_cased (previous_is_cased : bool) (s : str) : bool :=
  match s with
  | [] => true
  | c :: s' =>
      negb (if previous_is_cased then Py.isupper c else Py.islower c)
      && title_cased (Py.iscased c) s'
  end.

(** The four questions, as the terminal shows them. *)
Definition four_prompts : list event :=
  [Prompted (lit "Name: ");
   Prompted (lit "Types (separated by space): ");
   Prompted (lit "Predicates (separated by space): ");
   Prompted (lit "Actions (separated by space): ")].

(** The same as [rocket_world] below, on a storage layer that refuses to
    open any file. *)
Definition read_only_world : World :=
  mkWorld (fun _ => None)
          [lit "rocket"; lit "location stage"; lit "launched docked"; lit "launch"]
          [] (fun _ => false) None (8 * 1024) [].

(* ===================================================================== *)
(** * Examples *)
(* ===================================================================== *)

Definition rocket_world : World :=
  mkWorld (fun _ => None)
          [lit "rocket"; lit "location stage"; lit "launched docked"; lit "launch"]
          [] (fun _ => true) None (8 * 1024) [].

(** The same, with [rocket.py] already there. *)
Definition existing_world : World :=
  set_fs (store (lit "rocket.py") (File (lit "# mine")) (fs rocket_world)) rocket_world.

(** The same, with a blank answer to the first question. *)
Definition blank_name_world : World :=
  set_stdin [lit "   "; lit "location stage"; lit "launched docked"; lit "launch"]
            rocket_world.

(** The same, on a storage layer with room for 64 characters. *)
Definition full_disk_world : World :=
  mkWorld (fs rocket_world) (stdin rocket_world) (stdout rocket_world)
          (openable rocket_world) (Some 64) (buffer rocket_world) [].

(** The same, with another name. *)
Definition shuttle_world : World :=
  set_stdin [lit "shuttle"; lit "location stage"; lit "launched docked"; lit "launch"]
            rocket_world.

Example split_two : Py.split space (lit "location stage") = [lit "location"; lit "stage"].
Proof. reflexivity. Qed.

Example split_double_space : Py.split space (lit "a  b") = [lit "a"; []; lit "b"].
Proof. reflexivity. Qed.

Example split_empty : Py.split space [] = [[]].
Proof. reflexivity. Qed.

Example title_plain : Py.title (lit "loCATion") = lit "Location".
Proof. reflexivity. Qed.

Example title_digit : Py.title (lit "a1b") = lit "A1B".
Proof. reflexivity. Qed.

Example strip_both : Py.rstrip (Py.lstrip (lit "  rocket ")) = lit "rocket".
Proof. reflexivity. Qed.

Example join_two : Py.join NL [lit "a"; lit "b"] = lit "a" ++ NL ++ lit "b".
Proof. reflexivity. Qed.

Example rocket_run :
  let (r, w) := init (lit "rocket.py") rocket_world in
  r = inr tt /\
  fs w (lit "rocket.py") =
    Some (File (skeleton (lit "rocket") (lit "location stage")
                         (lit "launched docked") (lit "launch"))) /\
  stdin w = [] /\
  stdout w = [Prompted (lit "Name: ");
              Prompted (lit "Types (separated by space): ");
              Prompted (lit "Predicates (separated by space): ");
              Prompted (lit "Actions (separated by space): ");
              Printed (lit "File written to rocket.py")].
Proof. vm_compute. repeat split; reflexivity. Qed.

(** On the full storage layer the skeleton, shorter than the buffer, is
    held back: the confirmation is shown, and the run raises when the file
    is closed. *)
Example full_disk_run :
  let (r, w) := init (lit "rocket.py") full_disk_world in
  r = inl OSError /\
  stdout w = four_prompts ++ [Printed (lit "File written to rocket.py")] /\
  held w = [].
Proof. vm_compute. repeat split; reflexivity. Qed.

Example upper_sharp_s : Py.upper sharp_s_name = lit "SSX".
Proof. reflexivity. Qed.

Example strip_no_break_space :
  strip ("160"%char :: lit "rocket") = lit "rocket".
Proof. reflexivity. Qed.

(* ===================================================================== *)
(** * Strings: casing, stripping, splitting *)
(* ===================================================================== *)

(** Case analysis over the 256 characters. *)
Ltac every_char c := destruct c as [[] [] [] [] [] [] [] []].

Section Strings.

Lemma eqb_str_refl (a : str) : eqb_str a a = true.
Proof.
  induction a as [|c a IH]; simpl; [reflexivity|].
  now rewrite Ascii.eqb_refl, IH.
Qed.

Lemma eqb_str_eq (a b : str) : eqb_str a b = true <-> a = b.
Proof.
  split.
  - revert b; induction a as [|x a IH]; intros [|y b]; simpl; try discriminate; auto.
    intros H. apply andb_true_iff in H as [Hxy Hab].
    apply Ascii.eqb_eq in Hxy. apply IH in Hab. now subst.
  - intros ->. apply eqb_str_refl.
Qed.

Lemma eqb_str_neq (a b : str) : a <> b -> eqb_str a b = false.
Proof.
  intros H. destruct (eqb_str a b) eqn:E; [|reflexivity].
  apply eqb_str_eq in E. contradiction.
Qed.

(** [str.split] never gives the empty list. *)
Lemma split_nonempty (sep : ascii) (s : str) : Py.split sep s <> [].
Proof.
  destruct s as [|c s]; simpl; [discriminate|].
  destruct (Ascii.eqb c sep); [discriminate|].
  destruct (Py.split sep s); discriminate.
Qed.

Lemma uncased_upper_lower (c : ascii) :
  Py.iscased c = false -> Py.upper_char c = Py.lower_char c.
Proof. every_char c; intros H; vm_compute in H |- *; congruence. Qed.

Lemma uncased_title_str (c : ascii) :
  Py.iscased c = false -> Py.title_str c = [Py.lower_char c].
Proof. every_char c; intros H; vm_compute in H |- *; congruence. Qed.

Lemma ascii_title_str (c : ascii) :
  Py.is_ascii c = true -> Py.title_str c = [Py.upper_char c].
Proof. every_char c; intros H; vm_compute in H |- *; congruence. Qed.

Lemma ascii_upper_str (c : ascii) :
  Py.is_ascii c = true -> Py.upper_str c = [Py.upper_char c].
Proof. every_char c; intros H; vm_compute in H |- *; congruence. Qed.

(** Casing a one-word token: the first character goes to upper case and
    all the others to lower case. *)
Lemma title_from_lower (s : str) :
  forall b, cased_after_cased b s = true -> Py.title_from b s = Py.lower s.
Proof.
  induction s as [|c s IH]; intros b; simpl; [reflexivity|].
  intros H. apply andb_true_iff in H as [Hc Hs].
  rewrite (IH _ Hs).
  destruct b; [reflexivity|].
  rewrite orb_false_r in Hc. apply negb_true_iff in Hc.
  now rewrite (uncased_title_str _ Hc).
Qed.

Lemma title_one_word (t : str) :
  ascii_text t = true ->
  one_word t = true ->
  Py.title t = Py.upper (firstn 1 t) ++ Py.lower (skipn 1 t).
Proof.
  destruct t as [|c t]; [reflexivity|].
  unfold one_word, Py.title, ascii_text. simpl. intros Ha H.
  apply andb_true_iff in Ha as [Hc _].
  rewrite (ascii_title_str _ Hc), (ascii_upper_str _ Hc). simpl. f_equal.
  now apply title_from_lower.
Qed.

End Strings.

(* ===================================================================== *)
(** * Runs of the four questions *)
(* ===================================================================== *)

Section Questions.

Variable w : World.

Lemma input_line (prompt line : str) (rest : list str) :
  stdin w = line :: rest ->
  input prompt w = (inr line, asked prompt rest w).
Proof. intros H. unfold input, asked. simpl. now rewrite H. Qed.

Lemma input_eof (prompt : str) :
  stdin w = [] ->
  input prompt w =
    (inl (EOFError (lit "EOF when reading a line")), show (Prompted prompt) w).
Proof. intros H. unfold input. simpl. now rewrite H. Qed.

Lemma ask_name_ok (name : str) (rest : list str) (c : ascii) (r : str) :
  stdin w = name :: rest ->
  strip name = c :: r ->
  ask_name w = (inr (Py.upper [c] ++ r), asked (lit "Name: ") rest w).
Proof.
  intros Hin Hs. unfold ask_name, bind. rewrite (input_line _ Hin).
  change (Py.rstrip (Py.lstrip name)) with (strip name). rewrite Hs.
  reflexivity.
Qed.

Lemma ask_name_empty (name : str) (rest : list str) :
  stdin w = name :: rest ->
  strip name = [] ->
  ask_name w =
    (inl (IndexError (lit "string index out of range")), asked (lit "Name: ") rest w).
Proof.
  intros Hin Hs. unfold ask_name, bind. rewrite (input_line _ Hin).
  change (Py.rstrip (Py.lstrip name)) with (strip name). rewrite Hs.
  reflexivity.
Qed.

Lemma ask_types_ok (answer : str) (rest : list str) :
  stdin w = answer :: rest ->
  ask_types w =
    (inr (types_of answer), asked (lit "Types (separated by space): ") rest w).
Proof.
  intros Hin. unfold ask_types, bind. now rewrite (input_line _ Hin).
Qed.

Lemma ask_predicates_ok (answer : str) (rest : list str) :
  stdin w = answer :: rest ->
  ask_predicates w =
    (inr (predicates_of answer), asked (lit "Predicates (separated by space): ") rest w).
Proof.
  intros Hin. unfold ask_predicates, bind. now rewrite (input_line _ Hin).
Qed.

Lemma ask_actions_ok (answer : str) (rest : list str) :
  stdin w = answer :: rest ->
  ask_actions w =
    (inr (actions_of answer), asked (lit "Actions (separated by space): ") rest w).
Proof.
  intros Hin. unfold ask_actions, bind. now rewrite (input_line _ Hin).
Qed.

End Questions.

(* ===================================================================== *)
(** * The block that writes the file *)
(* ===================================================================== *)

Section Block.

Variable p : str.
Variables data msg : str.

Lemma block_unopenable (q : World) :
  openable q p = false -> with_open_w p (fun f => write f data ;;; print msg) q = (inl OSError, q).
Proof.
  intros Ho. unfold with_open_w, bind, open_w. now rewrite Ho.
Qed.

Lemma block_written (q : World) :
  openable q p = true ->
  match room q with
  | None => True
  | Some k => List.length data <= k
  end ->
  data <> [] ->
  with_open_w p (fun f => write f data ;;; print msg) q =
    (inr tt,
     closed_with (store p (File data) (store p (File []) (fs q)))
                 (show (Printed msg) q)).
Proof.
  destruct q as [f i o op rm bf hd]. cbn [openable room]. intros Ho Hr Hd.
  assert (Hfit : match rm with
                 | None => True
                 | Some k => (List.length data <=? k) = true
                 end).
  { destruct rm; [now apply Nat.leb_le|exact I]. }
  unfold with_open_w, bind, open_w, write, close, put, print,
    set_held, set_fs, show, closed_with.
  cbn [fs stdin stdout openable room buffer held app]. rewrite Ho.
  cbn [fs stdin stdout openable room buffer held app].
  destruct (List.length data <=? bf).
  - cbn [fs stdin stdout openable room buffer held app].
    destruct data as [|d data']; [contradiction|].
    cbn [fs stdin stdout openable room buffer held app].
    destruct rm as [k|]; [rewrite Hfit|]; reflexivity.
  - cbn [fs stdin stdout openable room buffer held app].
    destruct rm as [k|]; [rewrite Hfit|]; reflexivity.
Qed.

Lemma block_fails (q : World) (k : nat) :
  openable q p = true ->
  room q = Some k ->
  k < List.length data ->
  data <> [] ->
  with_open_w p (fun f => write f data ;;; print msg) q =
    (inl OSError,
     closed_with (store p (File (firstn k data)) (store p (File []) (fs q)))
                 (if List.length data <=? buffer q
                  then show (Printed msg) q else q)).
Proof.
  destruct q as [f i o op rm bf hd]. cbn [openable room buffer].
  intros Ho Hr Hk Hd. subst rm. apply Nat.leb_gt in Hk.
  unfold with_open_w, bind, open_w, write, close, put, print,
    set_held, set_fs, show, closed_with.
  cbn [fs stdin stdout openable room buffer held app]. rewrite Ho.
  cbn [fs stdin stdout openable room buffer held app].
  destruct (List.length data <=? bf).
  - cbn [fs stdin stdout openable room buffer held app].
    destruct data as [|d data']; [contradiction|].
    cbn [fs stdin stdout openable room buffer held app].
    rewrite Hk. reflexivity.
  - cbn [fs stdin stdout openable room buffer held app].
    rewrite Hk. reflexivity.
Qed.

End Block.

Lemma skeleton_not_empty (name types predicates actions : str) :
  skeleton name types predicates actions <> [].
Proof. unfold skeleton, template, domain_header. discriminate. Qed.

(* ===================================================================== *)
(** * Runs of [init] *)
(* ===================================================================== *)

Section Runs.

Variable filename : str.
Variable w : World.

Lemma init_exists (n : node) :
  fs w filename = Some n ->
  init filename w = (inl (FileExistsError file_exists_message), w).
Proof.
  intros H. unfold init, bind, path_exists. now rewrite H.
Qed.

Lemma init_no_answer :
  fs w filename = None ->
  stdin w = [] ->
  init filename w =
    (inl (EOFError (lit "EOF when reading a line")), show (Prompted (lit "Name: ")) w).
Proof.
  intros Hf Hin. unfold init, bind, path_exists. rewrite Hf.
  unfold ask_name, bind. now rewrite (input_eof _ _ Hin).
Qed.

Lemma init_empty_name (name : str) (rest : list str) :
  fs w filename = None ->
  stdin w = name :: rest ->
  strip name = [] ->
  init filename w =
    (inl (IndexError (lit "string index out of range")), asked (lit "Name: ") rest w).
Proof.
  intros Hf Hin Hs. unfold init, bind, path_exists. rewrite Hf.
  now rewrite (ask_name_empty _ Hin Hs).
Qed.

Lemma init_one_answer (name : str) (c : ascii) (r : str) :
  fs w filename = None ->
  stdin w = [name] ->
  strip name = c :: r ->
  init filename w = (inl (EOFError (lit "EOF when reading a line")), show (Prompted (lit "Types (separated by space): ")) (asked (lit "Name: ") [] w)).
Proof.
  intros Hf Hin Hs. unfold init, bind, path_exists. rewrite Hf.
  rewrite (ask_name_ok _ Hin Hs).
  unfold ask_types, bind. now rewrite input_eof.
Qed.

Lemma init_two_answers (name types : str) (c : ascii) (r : str) :
  fs w filename = None ->
  stdin w = [name; types] ->
  strip name = c :: r ->
  init filename w =
    (inl (EOFError (lit "EOF when reading a line")), show (Prompted (lit "Predicates (separated by space): ")) (asked (lit "Types (separated by space): ") [] (asked (lit "Name: ") [types] w))).
Proof.
  intros Hf Hin Hs. unfold init, bind, path_exists. rewrite Hf.
  rewrite (ask_name_ok _ Hin Hs).
  rewrite (@ask_types_ok _ types []) by reflexivity.
  unfold ask_predicates, bind. now rewrite input_eof.
Qed.

Lemma init_three_answers (name types predicates : str) (c : ascii) (r : str) :
  fs w filename = None ->
  stdin w = [name; types; predicates] ->
  strip name = c :: r ->
  init filename w =
    (inl (EOFError (lit "EOF when reading a line")),
     show (Prompted (lit "Actions (separated by space): ")) (asked (lit "Predicates (separated by space): ") [] (asked (lit "Types (separated by space): ") [predicates] (asked (lit "Name: ") [types; predicates] w)))).
Proof.
  intros Hf Hin Hs. unfold init, bind, path_exists. rewrite Hf.
  rewrite (ask_name_ok _ Hin Hs).
  rewrite (@ask_types_ok _ types [predicates]) by reflexivity.
  rewrite (@ask_predicates_ok _ predicates []) by reflexivity.
  unfold ask_actions, bind. now rewrite input_eof.
Qed.

(** With four answers and a name that is not empty, [init] reaches the
    writing of the skeleton. *)
Lemma init_answered (name types predicates actions : str) (rest : list str)
      (c : ascii) (r : str) :
  fs w filename = None ->
  stdin w = name :: types :: predicates :: actions :: rest ->
  strip name = c :: r ->
  init filename w =
    with_open_w filename (fun f =>
      write f (skeleton name types predicates actions) ;;;
      print (lit "File written to " ++ filename)) (questioned rest w).
Proof.
  intros Hf Hin Hs. unfold init at 1, path_exists. unfold bind at 1. rewrite Hf.
  unfold bind at 1. rewrite (ask_name_ok _ Hin Hs).
  unfold bind at 1.
  rewrite (@ask_types_ok _ types (predicates :: actions :: rest)) by reflexivity.
  unfold bind at 1.
  rewrite (@ask_predicates_ok _ predicates (actions :: rest)) by reflexivity.
  unfold bind at 1.
  rewrite (@ask_actions_ok _ actions rest) by reflexivity.
  unfold skeleton, class_name_of. rewrite Hs. reflexivity.
Qed.

Lemma init_not_openable (name types predicates actions : str) (rest : list str)
      (c : ascii) (r : str) :
  fs w filename = None ->
  stdin w = name :: types :: predicates :: actions :: rest ->
  strip name = c :: r ->
  openable w filename = false ->
  init filename w = (inl OSError, questioned rest w).
Proof.
  intros Hf Hin Hs Ho. rewrite (init_answered Hf Hin Hs).
  exact (@block_unopenable filename _ _ (questioned rest w) Ho).
Qed.

(** The world after the whole of the skeleton was written to [filename] and
    the confirmation shown. *)
Lemma init_written (name types predicates actions : str) (rest : list str)
      (c : ascii) (r : str) :
  fs w filename = None ->
  stdin w = name :: types :: predicates :: actions :: rest ->
  strip name = c :: r ->
  openable w filename = true ->
  match room w with
  | None => True
  | Some k => List.length (skeleton name types predicates actions) <= k
  end ->
  init filename w =
    (inr tt,
     closed_with
       (store filename (File (skeleton name types predicates actions))
              (store filename (File []) (fs w)))
       (show (Printed (lit "File written to " ++ filename)) (questioned rest w))).
Proof.
  intros Hf Hin Hs Ho Hr. rewrite (init_answered Hf Hin Hs).
  exact (@block_written filename _ _ (questioned rest w) Ho Hr
           (@skeleton_not_empty name types predicates actions)).
Qed.

(** The world after the write failed: the confirmation was shown when the
    skeleton was held back until the file was closed, and not otherwise. *)
Lemma init_write_fails (name types predicates actions : str) (rest : list str)
      (c : ascii) (r : str) (k : nat) :
  fs w filename = None ->
  stdin w = name :: types :: predicates :: actions :: rest ->
  strip name = c :: r ->
  openable w filename = true ->
  room w = Some k ->
  k < List.length (skeleton name types predicates actions) ->
  init filename w =
    (inl OSError,
     closed_with
       (store filename
              (File (firstn k (skeleton name types predicates actions)))
              (store filename (File []) (fs w)))
       (if List.length (skeleton name types predicates actions) <=? buffer w
        then show (Printed (lit "File written to " ++ filename)) (questioned rest w)
        else questioned rest w)).
Proof.
  intros Hf Hin Hs Ho Hr Hk. rewrite (init_answered Hf Hin Hs).
  exact (@block_fails filename _ _ (questioned rest w) k Ho Hr Hk
           (@skeleton_not_empty name types predicates actions)).
Qed.

End Runs.

(* ===================================================================== *)
(** * Lines *)
(* ===================================================================== *)

Section Lines.

Lemma nl_free_app (a b : str) : nl_free a -> nl_free b -> nl_free (a ++ b).
Proof.
  unfold nl_free, nl_freeb. intros Ha Hb. now rewrite forallb_app, Ha, Hb.
Qed.

Lemma nl_free_In (s : str) : nl_free s <-> (forall c, In c s -> c <> nl).
Proof.
  unfold nl_free, nl_freeb. rewrite forallb_forall. split; intros H c Hc.
  - apply H in Hc. apply negb_true_iff in Hc. now apply Ascii.eqb_neq in Hc.
  - apply negb_true_iff. apply Ascii.eqb_neq. now apply H.
Qed.

Lemma all_nl_free_In (ts : list str) :
  all_nl_free ts <-> (forall t, In t ts -> nl_free t).
Proof. unfold all_nl_free. apply forallb_forall. Qed.

Lemma all_nl_free_app (a b : list str) :
  all_nl_free a -> all_nl_free b -> all_nl_free (a ++ b).
Proof.
  unfold all_nl_free. intros Ha Hb. now rewrite forallb_app, Ha, Hb.
Qed.

Lemma text_lines_line (l rest : str) :
  nl_free l -> text_lines (l ++ nl :: rest) = l :: text_lines rest.
Proof.
  induction l as [|c l IH]; intros H.
  - reflexivity.
  - unfold nl_free in H. simpl in H. apply andb_true_iff in H as [Hc Hl].
    apply negb_true_iff in Hc. simpl. rewrite Hc, (IH Hl). reflexivity.
Qed.

Lemma text_lines_unlines (ls : list str) (rest : str) :
  all_nl_free ls -> text_lines (unlines ls ++ rest) = ls ++ text_lines rest.
Proof.
  induction ls as [|l ls IH]; intros H; [reflexivity|].
  unfold all_nl_free in H. simpl in H. apply andb_true_iff in H as [Hl Hls].
  unfold unlines. simpl. fold (unlines ls).
  rewrite <- !app_assoc. simpl.
  rewrite (text_lines_line _ Hl), (IH Hls). reflexivity.
Qed.

Lemma text_lines_unlines_all (ls : list str) :
  all_nl_free ls -> text_lines (unlines ls) = ls.
Proof.
  intros H. rewrite <- (app_nil_r (unlines ls)), (text_lines_unlines _ H).
  apply app_nil_r.
Qed.

Lemma terminated_app (a b : str) :
  b <> [] -> terminated (a ++ b) = terminated b.
Proof.
  intros Hb. induction a as [|c a IH]; [reflexivity|].
  simpl. destruct (a ++ b) eqn:E; [|exact IH].
  apply app_eq_nil in E as [_ E]. contradiction.
Qed.

Lemma terminated_unlines (ls : list str) : terminated (unlines ls) = true.
Proof.
  induction ls as [|l ls IH]; [reflexivity|].
  unfold unlines. simpl flat_map. fold (unlines ls).
  destruct (unlines ls) eqn:E.
  - rewrite app_nil_r, terminated_app by discriminate. reflexivity.
  - rewrite terminated_app by discriminate. exact IH.
Qed.

Lemma unlines_app (a b : list str) : unlines (a ++ b) = unlines a ++ unlines b.
Proof. unfold unlines. apply flat_map_app. Qed.

Lemma unlines_blank : unlines [blank] = NL.
Proof. reflexivity. Qed.

(** The text of stubs joined with a newline holds the lines of the blocks
    with one blank line between two blocks. *)
Lemma join_blocks (A : Type) (f : A -> str) (g : A -> list str) (xs : list A) :
  (forall x, f x = unlines (g x)) ->
  Py.join NL (map f xs) = unlines (intercalate [blank] (map g xs)).
Proof.
  intros Hfg. induction xs as [|x xs IH]; [reflexivity|].
  destruct xs as [|y xs]; [simpl; apply Hfg|].
  change (Py.join NL (map f (x :: y :: xs)))
    with (f x ++ NL ++ Py.join NL (map f (y :: xs))).
  change (intercalate [blank] (map g (x :: y :: xs)))
    with (g x ++ [blank] ++ intercalate [blank] (map g (y :: xs))).
  rewrite IH, !unlines_app, unlines_blank, Hfg. reflexivity.
Qed.

Lemma join_lines_flat (A : Type) (f : A -> str) (g : A -> str) (xs : list A) :
  (forall x, f x = g x ++ NL) ->
  Py.join [] (map f xs) = unlines (map g xs).
Proof.
  intros Hfg. induction xs as [|x xs IH]; [reflexivity|].
  destruct xs as [|y xs].
  - simpl. rewrite Hfg. now rewrite app_nil_r.
  - change (Py.join [] (map f (x :: y :: xs)))
      with (f x ++ [] ++ Py.join [] (map f (y :: xs))).
    rewrite IH, Hfg. reflexivity.
Qed.

End Lines.

(* ===================================================================== *)
(** * The sections, line by line *)
(* ===================================================================== *)

Section SectionLines.

Lemma domain_header_unlines (cn : str) :
  domain_header cn = unlines (domain_header_lines cn).
Proof.
  unfold domain_header, domain_header_lines, domain_class_line.
  rewrite unlines_app.
  change (unlines (firstn 4 (text_lines (domain_header []))))
    with (lit "from py2pddl import Domain, create_type, create_objs" ++ NL ++
          lit "from py2pddl import predicate, action, goal, init" ++ NL ++
          NL ++ NL).
  unfold unlines. cbn [flat_map]. rewrite <- !app_assoc. rewrite app_nil_r.
  reflexivity.
Qed.

Lemma type_decl_line_nl (typ : str) : type_decl typ = type_decl_line typ ++ NL.
Proof.
  unfold type_decl, type_decl_line. rewrite <- !app_assoc. reflexivity.
Qed.

Lemma section_types_unlines (ts : list str) :
  section_types ts = unlines (map type_decl_line ts).
Proof. apply join_lines_flat. apply type_decl_line_nl. Qed.

Lemma predicate_block_unlines (p : str) :
  predicate_block p = unlines (predicate_block_lines p).
Proof.
  unfold predicate_block, predicate_block_lines, predicate_marker, def_line.
  rewrite unlines_app.
  change (unlines (skipn 2 (text_lines (predicate_block []))))
    with (lit "        " ++ DQ3 ++ lit "Complete the method signature" ++ DQ3 ++ NL).
  unfold unlines. cbn [flat_map]. rewrite <- !app_assoc.
  reflexivity.
Qed.

Lemma action_block_unlines (a : str) :
  action_block a = unlines (action_block_lines a).
Proof.
  unfold action_block, action_block_lines, action_marker, def_line.
  rewrite unlines_app.
  change (unlines (skipn 2 (text_lines (action_block []))))
    with (lit "        " ++ DQ3 ++ lit "This should be a pass" ++ DQ3 ++ NL ++
          lit "        precond: list = None  # to fill in" ++ NL ++
          lit "        effect: list = None  # to fill in" ++ NL ++
          lit "        return precond, effect" ++ NL).
  unfold unlines. cbn [flat_map]. rewrite <- !app_assoc.
  reflexivity.
Qed.

Lemma section_predicate_unlines (ps : list str) :
  section_predicate ps = unlines (intercalate [blank] (map predicate_block_lines ps)).
Proof. apply join_blocks. apply predicate_block_unlines. Qed.

Lemma section_action_unlines (acts : list str) :
  section_action acts = unlines (intercalate [blank] (map action_block_lines acts)).
Proof. apply join_blocks. apply action_block_unlines. Qed.

Lemma problem_header_unlines (cn : str) :
  problem_header cn = unlines [blank; problem_class_line cn].
Proof.
  unfold problem_header, problem_class_line, unlines. cbn [flat_map].
  rewrite <- !app_assoc. rewrite app_nil_r. reflexivity.
Qed.

Lemma section_stubs_unlines : section_stubs = unlines (text_lines section_stubs).
Proof. vm_compute. reflexivity. Qed.

Lemma template_unlines (cn : str) (ts ps acts : list str) :
  template cn ts ps acts = unlines (template_lines cn ts ps acts).
Proof.
  unfold template, template_lines.
  rewrite !unlines_app, !unlines_blank.
  rewrite <- domain_header_unlines, <- section_types_unlines,
          <- section_predicate_unlines, <- section_action_unlines,
          <- section_stubs_unlines.
  rewrite <- problem_header_unlines.
  unfold section_stubs. reflexivity.
Qed.

End SectionLines.

(* ===================================================================== *)
(** * Newlines: none in the answers, none in the tokens *)
(* ===================================================================== *)

Section Newlines.

Ltac nl_free_parts :=
  repeat (apply nl_free_app; [first [reflexivity | assumption]|]);
  first [reflexivity | assumption].

Lemma upper_char_nl (c : ascii) :
  Ascii.eqb (Py.upper_char c) nl = Ascii.eqb c nl.
Proof. every_char c; reflexivity. Qed.

Lemma lower_char_nl (c : ascii) :
  Ascii.eqb (Py.lower_char c) nl = Ascii.eqb c nl.
Proof. every_char c; reflexivity. Qed.

Lemma upper_str_nl (c : ascii) :
  nl_freeb (Py.upper_str c) = negb (Ascii.eqb c nl).
Proof. every_char c; reflexivity. Qed.

Lemma title_str_nl (c : ascii) :
  nl_freeb (Py.title_str c) = negb (Ascii.eqb c nl).
Proof. every_char c; reflexivity. Qed.

Lemma nl_free_upper (s : str) : nl_free s -> nl_free (Py.upper s).
Proof.
  unfold nl_free, Py.upper. induction s as [|c s IH]; [auto|].
  intros H. unfold nl_freeb in H. simpl in H.
  apply andb_true_iff in H as [Hc Hs].
  simpl. unfold nl_freeb in *. rewrite forallb_app.
  fold (nl_freeb (Py.upper_str c)). rewrite upper_str_nl, Hc. now apply IH.
Qed.

Lemma nl_free_lower (s : str) : nl_free s -> nl_free (Py.lower s).
Proof.
  unfold nl_free, nl_freeb, Py.lower. induction s as [|c s IH]; simpl; [auto|].
  rewrite lower_char_nl. intros H. apply andb_true_iff in H as [Hc Hs].
  now rewrite Hc, IH.
Qed.

Lemma nl_free_title (s : str) : nl_free s -> nl_free (Py.title s).
Proof.
  unfold nl_free, Py.title. generalize false.
  induction s as [|c s IH]; intros b; [auto|].
  intros H. unfold nl_freeb in H. simpl in H.
  apply andb_true_iff in H as [Hc Hs].
  simpl. unfold nl_freeb in *. rewrite forallb_app.
  rewrite (IH _ Hs), andb_true_r.
  destruct b.
  - simpl. now rewrite lower_char_nl, Hc.
  - fold (nl_freeb (Py.title_str c)). now rewrite title_str_nl, Hc.
Qed.

Lemma lstrip_In (s : str) (c : ascii) : In c (Py.lstrip s) -> In c s.
Proof.
  induction s as [|d s IH]; simpl; [auto|].
  destruct (Py.isspace d); [|auto]. intros H. right. now apply IH.
Qed.

Lemma strip_In (s : str) (c : ascii) : In c (strip s) -> In c s.
Proof.
  unfold strip, Py.rstrip. intros H.
  apply in_rev in H. apply lstrip_In in H. apply in_rev in H.
  now apply lstrip_In.
Qed.

Lemma nl_free_strip (s : str) : nl_free s -> nl_free (strip s).
Proof.
  rewrite !nl_free_In. intros H c Hc. apply H. now apply strip_In.
Qed.

Lemma nl_free_split (sep : ascii) (s : str) :
  nl_free s -> all_nl_free (Py.split sep s).
Proof.
  unfold all_nl_free, nl_free.
  induction s as [|c s IH]; [reflexivity|].
  simpl. intros H. apply andb_true_iff in H as [Hc Hs].
  specialize (IH Hs).
  destruct (Ascii.eqb c sep); [exact IH|].
  destruct (Py.split sep s) as [|tok toks]; simpl in *.
  - now rewrite Hc.
  - now rewrite Hc.
Qed.

Lemma all_nl_free_map (f : str -> str) (ts : list str) :
  (forall t, nl_free t -> nl_free (f t)) ->
  all_nl_free ts -> all_nl_free (map f ts).
Proof.
  intros Hf. rewrite !all_nl_free_In. intros H t Ht.
  apply in_map_iff in Ht as [u [<- Hu]]. apply Hf. now apply H.
Qed.

Lemma nl_free_types_of (answer : str) :
  nl_free answer -> all_nl_free (types_of answer).
Proof.
  intros H. apply all_nl_free_map; [apply nl_free_title|].
  apply nl_free_split. now apply nl_free_strip.
Qed.

Lemma nl_free_predicates_of (answer : str) :
  nl_free answer -> all_nl_free (predicates_of answer).
Proof.
  intros H. apply all_nl_free_map; [apply nl_free_lower|].
  apply nl_free_split. now apply nl_free_strip.
Qed.

Lemma nl_free_actions_of (answer : str) :
  nl_free answer -> all_nl_free (actions_of answer).
Proof. apply nl_free_predicates_of. Qed.

Lemma nl_free_firstn (n : nat) (s : str) : nl_free s -> nl_free (firstn n s).
Proof.
  rewrite !nl_free_In. intros H c Hc. apply H. rewrite <- (firstn_skipn n s).
  apply in_or_app. now left.
Qed.

Lemma nl_free_skipn (n : nat) (s : str) : nl_free s -> nl_free (skipn n s).
Proof.
  rewrite !nl_free_In. intros H c Hc. apply H. rewrite <- (firstn_skipn n s).
  apply in_or_app. now right.
Qed.

Lemma nl_free_class_name_of (answer : str) :
  nl_free answer -> nl_free (class_name_of answer).
Proof.
  intros H. apply nl_free_strip in H. unfold class_name_of.
  apply nl_free_app.
  - apply nl_free_upper. now apply nl_free_firstn.
  - now apply nl_free_skipn.
Qed.

(** The named lines hold no newline when the answers hold none. *)

Lemma nl_free_domain_class_line (cn : str) :
  nl_free cn -> nl_free (domain_class_line cn).
Proof. intros H. unfold domain_class_line. nl_free_parts. Qed.

Lemma nl_free_problem_class_line (cn : str) :
  nl_free cn -> nl_free (problem_class_line cn).
Proof. intros H. unfold problem_class_line. nl_free_parts. Qed.

Lemma nl_free_def_line (name : str) : nl_free name -> nl_free (def_line name).
Proof. intros H. unfold def_line. nl_free_parts. Qed.

Lemma nl_free_type_decl_line (typ : str) :
  nl_free typ -> nl_free (type_decl_line typ).
Proof. intros H. unfold type_decl_line. nl_free_parts. Qed.

Lemma nl_free_domain_header_lines (cn : str) :
  nl_free cn -> all_nl_free (domain_header_lines cn).
Proof.
  intros H. unfold domain_header_lines. apply all_nl_free_app; [reflexivity|].
  unfold all_nl_free. cbn [forallb]. now rewrite (nl_free_domain_class_line H).
Qed.

Lemma nl_free_predicate_block_lines (p : str) :
  nl_free p -> all_nl_free (predicate_block_lines p).
Proof.
  intros H. unfold predicate_block_lines. apply all_nl_free_app; [|reflexivity].
  unfold all_nl_free. cbn [forallb]. now rewrite (nl_free_def_line H).
Qed.

Lemma nl_free_action_block_lines (a : str) :
  nl_free a -> all_nl_free (action_block_lines a).
Proof.
  intros H. unfold action_block_lines. apply all_nl_free_app; [|reflexivity].
  unfold all_nl_free. cbn [forallb]. now rewrite (nl_free_def_line H).
Qed.

Lemma nl_free_intercalate (A : Type) (g : A -> list str) (xs : list A) :
  (forall x, In x xs -> all_nl_free (g x)) ->
  all_nl_free (intercalate [blank] (map g xs)).
Proof.
  induction xs as [|x xs IH]; intros H; [reflexivity|].
  destruct xs as [|y xs]; [apply H; now left|].
  change (intercalate [blank] (map g (x :: y :: xs)))
    with (g x ++ [blank] ++ intercalate [blank] (map g (y :: xs))).
  apply all_nl_free_app; [apply H; now left|].
  apply all_nl_free_app; [reflexivity|].
  apply IH. intros z Hz. apply H. now right.
Qed.

Lemma nl_free_type_lines (ts : list str) :
  all_nl_free ts -> all_nl_free (map type_decl_line ts).
Proof. apply all_nl_free_map. apply nl_free_type_decl_line. Qed.

Lemma nl_free_predicate_lines (ps : list str) :
  all_nl_free ps -> all_nl_free (intercalate [blank] (map predicate_block_lines ps)).
Proof.
  intros H. apply nl_free_intercalate. intros p Hp.
  apply nl_free_predicate_block_lines. revert p Hp. now apply all_nl_free_In.
Qed.

Lemma nl_free_action_lines (acts : list str) :
  all_nl_free acts -> all_nl_free (intercalate [blank] (map action_block_lines acts)).
Proof.
  intros H. apply nl_free_intercalate. intros a Ha.
  apply nl_free_action_block_lines. revert a Ha. now apply all_nl_free_In.
Qed.

Lemma nl_free_template_lines (cn : str) (ts ps acts : list str) :
  nl_free cn -> all_nl_free ts -> all_nl_free ps -> all_nl_free acts ->
  all_nl_free (template_lines cn ts ps acts).
Proof.
  intros Hcn Hts Hps Hacts. unfold template_lines.
  apply all_nl_free_app; [now apply nl_free_domain_header_lines|].
  apply all_nl_free_app; [reflexivity|].
  apply all_nl_free_app; [now apply nl_free_type_lines|].
  apply all_nl_free_app; [reflexivity|].
  apply all_nl_free_app; [now apply nl_free_predicate_lines|].
  apply all_nl_free_app; [reflexivity|].
  apply all_nl_free_app; [now apply nl_free_action_lines|].
  apply all_nl_free_app; [reflexivity|].
  apply all_nl_free_app.
  { unfold all_nl_free. cbn [forallb]. now rewrite (nl_free_problem_class_line Hcn). }
  apply all_nl_free_app; reflexivity.
Qed.

(** The lines of the sections and of the whole skeleton. *)

Lemma text_lines_domain_header (cn : str) :
  nl_free cn -> text_lines (domain_header cn) = domain_header_lines cn.
Proof.
  intros H. rewrite domain_header_unlines. apply text_lines_unlines_all.
  now apply nl_free_domain_header_lines.
Qed.

Lemma text_lines_section_types (ts : list str) :
  all_nl_free ts -> text_lines (section_types ts) = map type_decl_line ts.
Proof.
  intros H. rewrite section_types_unlines. apply text_lines_unlines_all.
  now apply nl_free_type_lines.
Qed.

Lemma text_lines_predicate_block (p : str) :
  nl_free p -> text_lines (predicate_block p) = predicate_block_lines p.
Proof.
  intros H. rewrite predicate_block_unlines. apply text_lines_unlines_all.
  now apply nl_free_predicate_block_lines.
Qed.

Lemma text_lines_action_block (a : str) :
  nl_free a -> text_lines (action_block a) = action_block_lines a.
Proof.
  intros H. rewrite action_block_unlines. apply text_lines_unlines_all.
  now apply nl_free_action_block_lines.
Qed.

Lemma text_lines_section_predicate (ps : list str) :
  all_nl_free ps ->
  text_lines (section_predicate ps) =
    intercalate [blank] (map predicate_block_lines ps).
Proof.
  intros H. rewrite section_predicate_unlines. apply text_lines_unlines_all.
  now apply nl_free_predicate_lines.
Qed.

Lemma text_lines_section_action (acts : list str) :
  all_nl_free acts ->
  text_lines (section_action acts) =
    intercalate [blank] (map action_block_lines acts).
Proof.
  intros H. rewrite section_action_unlines. apply text_lines_unlines_all.
  now apply nl_free_action_lines.
Qed.

Lemma text_lines_template (cn : str) (ts ps acts : list str) :
  nl_free cn -> all_nl_free ts -> all_nl_free ps -> all_nl_free acts ->
  text_lines (template cn ts ps acts) = template_lines cn ts ps acts.
Proof.
  intros Hcn Hts Hps Hacts. rewrite template_unlines.
  apply text_lines_unlines_all. now apply nl_free_template_lines.
Qed.

End Newlines.

(* ===================================================================== *)
(** * Telling the lines apart, and counting them *)
(* ===================================================================== *)

Section Counting.

Lemma ending_app (x y : str) :
  2 <= List.length y -> ending (x ++ y) = ending y.
Proof.
  intros H. unfold ending. rewrite rev_app_distr, firstn_app, length_rev.
  replace (2 - List.length y) with 0 by lia. simpl. apply app_nil_r.
Qed.

Lemma differs_by_ending (a b : str) :
  ending a <> ending b -> eqb_str a b = false.
Proof. intros H. apply eqb_str_neq. intros ->. now apply H. Qed.

Lemma ending_type_decl_line (typ : str) :
  ending (type_decl_line typ) = [")"%char; dq].
Proof.
  unfold type_decl_line.
  do 5 (rewrite ending_app by (rewrite ?length_app; simpl; lia)).
  reflexivity.
Qed.

Lemma ending_def_line (name : str) :
  ending (def_line name) = [":"%char; ")"%char].
Proof.
  unfold def_line.
  do 2 (rewrite ending_app by (rewrite ?length_app; simpl; lia)).
  reflexivity.
Qed.

Lemma ending_domain_class_line (cn : str) :
  ending (domain_class_line cn) = [":"%char; ")"%char].
Proof.
  unfold domain_class_line.
  do 2 (rewrite ending_app by (rewrite ?length_app; simpl; lia)).
  reflexivity.
Qed.

Lemma ending_problem_class_line (cn : str) :
  ending (problem_class_line cn) = [":"%char; ")"%char].
Proof.
  unfold problem_class_line.
  do 4 (rewrite ending_app by (rewrite ?length_app; simpl; lia)).
  reflexivity.
Qed.

(** A line is recognised as a type declaration exactly when it has the
    shape of one. *)
Lemma is_type_decl_type_decl_line (typ : str) :
  is_type_decl (type_decl_line typ) = true.
Proof.
  unfold is_type_decl.
  assert (Hlen : List.length (type_decl_line typ) = 22 + 2 * List.length typ).
  { unfold type_decl_line. rewrite !length_app. simpl. lia. }
  rewrite Hlen.
  replace (22 + 2 * List.length typ - 22) with (2 * List.length typ) by lia.
  rewrite Nat.div2_double.
  assert (Hskip : firstn (List.length typ) (skipn 4 (type_decl_line typ)) = typ).
  { unfold type_decl_line. simpl skipn.
    rewrite firstn_app, Nat.sub_diag, firstn_all. simpl. apply app_nil_r. }
  rewrite Hskip. apply eqb_str_refl.
Qed.

Lemma is_type_decl_shape (l : str) :
  is_type_decl l = true <-> exists typ, l = type_decl_line typ.
Proof.
  split.
  - unfold is_type_decl. intros H. apply eqb_str_eq in H. eauto.
  - intros [typ ->]. apply is_type_decl_type_decl_line.
Qed.

Lemma is_type_decl_ending (l : str) :
  ending l <> [")"%char; dq] -> is_type_decl l = false.
Proof.
  intros H. unfold is_type_decl. apply differs_by_ending.
  now rewrite ending_type_decl_line.
Qed.

Lemma count_app (f : str -> bool) (a b : list str) :
  count f (a ++ b) = count f a + count f b.
Proof. unfold count. now rewrite filter_app, length_app. Qed.

Lemma count_none (f : str -> bool) (ls : list str) :
  (forall l, In l ls -> f l = false) -> count f ls = 0.
Proof.
  unfold count. induction ls as [|l ls IH]; intros H; [reflexivity|].
  simpl. rewrite (H l) by now left. apply IH. intros x Hx. apply H. now right.
Qed.

Lemma count_all (f : str -> bool) (ls : list str) :
  (forall l, In l ls -> f l = true) -> count f ls = List.length ls.
Proof.
  unfold count. induction ls as [|l ls IH]; intros H; [reflexivity|].
  simpl. rewrite (H l) by now left. simpl. f_equal.
  apply IH. intros x Hx. apply H. now right.
Qed.

Lemma count_blocks (A : Type) (f : str -> bool) (g : A -> list str)
      (k : nat) (xs : list A) :
  f blank = false ->
  (forall x, count f (g x) = k) ->
  count f (intercalate [blank] (map g xs)) = k * List.length xs.
Proof.
  intros Hb Hg. induction xs as [|x xs IH]; [unfold count; simpl; lia|].
  destruct xs as [|y xs]; [simpl; rewrite Hg; lia|].
  change (intercalate [blank] (map g (x :: y :: xs)))
    with (g x ++ [blank] ++ intercalate [blank] (map g (y :: xs))).
  rewrite !count_app, IH, Hg.
  unfold count at 1. simpl filter. rewrite Hb.
  cbn [List.length] in *. nia.
Qed.

Ltac by_ending :=
  first [apply differs_by_ending | apply is_type_decl_ending];
  rewrite ?ending_def_line, ?ending_type_decl_line,
          ?ending_domain_class_line, ?ending_problem_class_line;
  vm_compute; discriminate.

Lemma count_pair (f : str -> bool) (a b : str) (tl : list str) (n : nat) :
  f b = false ->
  count f tl = 0 ->
  (if f a then 1 else 0) = n ->
  count f ([a; b] ++ tl) = n.
Proof.
  intros Hb Htl Ha. rewrite count_app, Htl. unfold count. simpl.
  rewrite Hb. destruct (f a); simpl; lia.
Qed.

Lemma count_last (f : str -> bool) (l : str) (front : list str) :
  f l = false ->
  count f front = 0 ->
  count f (front ++ [l]) = 0.
Proof.
  intros Hl Hf. rewrite count_app, Hf. unfold count. simpl. now rewrite Hl.
Qed.

Section Skeleton.

Variable cn : str.
Variables ts ps acts : list str.

Lemma count_predicate_markers :
  count (eqb_str predicate_marker) (template_lines cn ts ps acts) = List.length ps.
Proof.
  unfold template_lines. rewrite !count_app.
  assert (H1 : count (eqb_str predicate_marker) (domain_header_lines cn) = 0).
  { apply count_last; [by_ending | reflexivity]. }
  assert (H2 : count (eqb_str predicate_marker) (map type_decl_line ts) = 0).
  { apply count_none. intros l Hl. apply in_map_iff in Hl as [t [<- _]]. by_ending. }
  assert (H3 : count (eqb_str predicate_marker)
                     (intercalate [blank] (map predicate_block_lines ps))
               = 1 * List.length ps).
  { apply count_blocks; [reflexivity|]. intros p.
    apply count_pair; [by_ending | reflexivity | reflexivity]. }
  assert (H4 : count (eqb_str predicate_marker)
                     (intercalate [blank] (map action_block_lines acts))
               = 0 * List.length acts).
  { apply count_blocks; [reflexivity|]. intros a.
    apply count_pair; [by_ending | reflexivity | reflexivity]. }
  assert (H5 : count (eqb_str predicate_marker) [blank; problem_class_line cn] = 0).
  { apply (count_last _ _ [blank]); [by_ending | reflexivity]. }
  rewrite H1, H2, H3, H4, H5.
  replace (count (eqb_str predicate_marker) (text_lines section_stubs)) with 0
    by reflexivity.
  replace (count (eqb_str predicate_marker) [blank]) with 0 by reflexivity.
  lia.
Qed.

Lemma count_action_markers :
  count (eqb_str action_marker) (template_lines cn ts ps acts) = List.length acts.
Proof.
  unfold template_lines. rewrite !count_app.
  assert (H1 : count (eqb_str action_marker) (domain_header_lines cn) = 0).
  { apply count_last; [by_ending | reflexivity]. }
  assert (H2 : count (eqb_str action_marker) (map type_decl_line ts) = 0).
  { apply count_none. intros l Hl. apply in_map_iff in Hl as [t [<- _]]. by_ending. }
  assert (H3 : count (eqb_str action_marker)
                     (intercalate [blank] (map predicate_block_lines ps))
               = 0 * List.length ps).
  { apply count_blocks; [reflexivity|]. intros p.
    apply count_pair; [by_ending | reflexivity | reflexivity]. }
  assert (H4 : count (eqb_str action_marker)
                     (intercalate [blank] (map action_block_lines acts))
               = 1 * List.length acts).
  { apply count_blocks; [reflexivity|]. intros a.
    apply count_pair; [by_ending | reflexivity | reflexivity]. }
  assert (H5 : count (eqb_str action_marker) [blank; problem_class_line cn] = 0).
  { apply (count_last _ _ [blank]); [by_ending | reflexivity]. }
  rewrite H1, H2, H3, H4, H5.
  replace (count (eqb_str action_marker) (text_lines section_stubs)) with 0
    by reflexivity.
  replace (count (eqb_str action_marker) [blank]) with 0 by reflexivity.
  lia.
Qed.

Lemma count_type_decls :
  count is_type_decl (template_lines cn ts ps acts) = List.length ts.
Proof.
  unfold template_lines. rewrite !count_app.
  assert (H1 : count is_type_decl (domain_header_lines cn) = 0).
  { apply count_last; [by_ending | reflexivity]. }
  assert (H2 : count is_type_decl (map type_decl_line ts) = List.length ts).
  { rewrite count_all; [apply length_map|]. intros l Hl.
    apply in_map_iff in Hl as [t [<- _]]. apply is_type_decl_type_decl_line. }
  assert (H3 : count is_type_decl
                     (intercalate [blank] (map predicate_block_lines ps))
               = 0 * List.length ps).
  { apply count_blocks; [reflexivity|]. intros p.
    apply count_pair; [by_ending | reflexivity | reflexivity]. }
  assert (H4 : count is_type_decl
                     (intercalate [blank] (map action_block_lines acts))
               = 0 * List.length acts).
  { apply count_blocks; [reflexivity|]. intros a.
    apply count_pair; [by_ending | reflexivity | reflexivity]. }
  assert (H5 : count is_type_decl [blank; problem_class_line cn] = 0).
  { apply (count_last _ _ [blank]); [by_ending | reflexivity]. }
  rewrite H1, H2, H3, H4, H5.
  replace (count is_type_decl (text_lines section_stubs)) with 0 by reflexivity.
  replace (count is_type_decl [blank]) with 0 by reflexivity.
  lia.
Qed.

End Skeleton.

End Counting.

(* ===================================================================== *)
(** * Layout: what stands between two groups of lines *)
(* ===================================================================== *)

Section Layout.

Lemma last_app_nonempty (a b : list str) (d : str) :
  b <> [] -> last (a ++ b) d = last b d.
Proof.
  intros Hb. destruct (exists_last Hb) as [b' [z ->]].
  now rewrite app_assoc, !last_last.
Qed.

Lemma solid_nonempty (ls : list str) : solid ls -> ls <> [].
Proof. intros [H _] ->. now apply H. Qed.

Lemma solid_app (a b : list str) : solid a -> solid b -> solid (a ++ b).
Proof.
  intros Ha Hb. pose proof (solid_nonempty Ha) as Na.
  pose proof (solid_nonempty Hb) as Nb.
  destruct Ha as [Ha _], Hb as [_ Hb]. split.
  - destruct a; [contradiction|exact Ha].
  - now rewrite last_app_nonempty.
Qed.

Lemma solid_intercalate (groups : list (list str)) :
  groups <> [] ->
  (forall g, In g groups -> solid g) ->
  solid (intercalate [blank] groups).
Proof.
  induction groups as [|g groups IH]; intros Hne H; [contradiction|].
  destruct groups as [|g' groups]; [apply H; now left|].
  change (intercalate [blank] (g :: g' :: groups))
    with (g ++ [blank] ++ intercalate [blank] (g' :: groups)).
  assert (Hg : solid g) by (apply H; now left).
  assert (Hrest : solid (intercalate [blank] (g' :: groups))).
  { apply IH; [discriminate|]. intros x Hx. apply H. now right. }
  pose proof (solid_nonempty Hg) as Ng.
  pose proof (solid_nonempty Hrest) as Nr.
  split.
  - destruct g; [contradiction|]. exact (proj1 Hg).
  - rewrite !last_app_nonempty; [exact (proj2 Hrest)|exact Nr|].
    intros E. apply app_eq_nil in E as [E _]. discriminate.
Qed.

Lemma solid_map (f : str -> str) (ts : list str) :
  ts <> [] -> (forall t, f t <> blank) -> solid (map f ts).
Proof.
  intros Hne Hf. split.
  - destruct ts; [contradiction|]. apply Hf.
  - destruct (exists_last Hne) as [ts' [z ->]].
    rewrite map_app. simpl. rewrite last_last. apply Hf.
Qed.

Lemma type_decl_line_not_blank (typ : str) : type_decl_line typ <> blank.
Proof. discriminate. Qed.

Lemma solid_domain_header_lines (cn : str) : solid (domain_header_lines cn).
Proof.
  unfold domain_header_lines. split.
  - vm_compute. discriminate.
  - rewrite last_last. discriminate.
Qed.

Lemma solid_predicate_block_lines (p : str) : solid (predicate_block_lines p).
Proof.
  unfold predicate_block_lines. split.
  - discriminate.
  - rewrite last_app_nonempty by (vm_compute; discriminate).
    vm_compute. discriminate.
Qed.

Lemma solid_action_block_lines (a : str) : solid (action_block_lines a).
Proof.
  unfold action_block_lines. split.
  - discriminate.
  - rewrite last_app_nonempty by (vm_compute; discriminate).
    vm_compute. discriminate.
Qed.

Lemma solid_type_lines (ts : list str) :
  ts <> [] -> solid (map type_decl_line ts).
Proof. intros H. apply solid_map; [exact H|apply type_decl_line_not_blank]. Qed.

Lemma solid_predicate_lines (ps : list str) :
  ps <> [] -> solid (intercalate [blank] (map predicate_block_lines ps)).
Proof.
  intros H. apply solid_intercalate.
  - destruct ps; [contradiction|discriminate].
  - intros g Hg. apply in_map_iff in Hg as [p [<- _]].
    apply solid_predicate_block_lines.
Qed.

Lemma solid_action_lines (acts : list str) :
  acts <> [] -> solid (intercalate [blank] (map action_block_lines acts)).
Proof.
  intros H. apply solid_intercalate.
  - destruct acts; [contradiction|discriminate].
  - intros g Hg. apply in_map_iff in Hg as [a [<- _]].
    apply solid_action_block_lines.
Qed.

Lemma solid_problem_class_line (cn : str) : solid [problem_class_line cn].
Proof. split; discriminate. Qed.

Lemma solid_stubs : solid (text_lines section_stubs).
Proof. split; vm_compute; discriminate. Qed.

(** Deciding that a group of lines occurs in a list of lines. *)

Lemma is_prefix_app (x post : list str) : is_prefix x (x ++ post) = true.
Proof.
  induction x as [|l x IH]; [reflexivity|]. simpl.
  now rewrite eqb_str_refl, IH.
Qed.

Lemma is_infix_app (x pre post : list str) :
  is_infix x (pre ++ x ++ post) = true.
Proof.
  induction pre as [|l pre IH].
  - simpl. destruct (x ++ post) eqn:E; simpl; rewrite <- ?E;
      now rewrite is_prefix_app.
  - simpl. rewrite IH. apply orb_true_r.
Qed.

Lemma separated_by_infix (n : nat) (a b ls : list str) :
  separated_by n a b ls -> is_infix (a ++ repeat blank n ++ b) ls = true.
Proof.
  intros [pre [post ->]].
  replace (pre ++ a ++ repeat blank n ++ b ++ post)
    with (pre ++ (a ++ repeat blank n ++ b) ++ post)
    by (now rewrite <- !app_assoc).
  apply is_infix_app.
Qed.

(** The gaps of a text laid out as [template] lays out the skeleton. *)
Lemma gaps_of_layout (D T P A S out : list str) (c : str) :
  out = D ++ [blank] ++ T ++ [blank] ++ P ++ [blank] ++ A ++ [blank] ++
        [blank; c] ++ [blank] ++ S ->
  separated_by 1 D T out /\
  separated_by 1 T P out /\
  separated_by 1 P A out /\
  separated_by 2 A [c] out /\
  separated_by 1 [c] S out.
Proof.
  intros ->. repeat split.
  - exists [], ([blank] ++ P ++ [blank] ++ A ++ [blank] ++ [blank; c] ++ [blank] ++ S).
    reflexivity.
  - exists (D ++ [blank]), ([blank] ++ A ++ [blank] ++ [blank; c] ++ [blank] ++ S).
    now rewrite <- !app_assoc.
  - exists (D ++ [blank] ++ T ++ [blank]), ([blank] ++ [blank; c] ++ [blank] ++ S).
    now rewrite <- !app_assoc.
  - exists (D ++ [blank] ++ T ++ [blank] ++ P ++ [blank]), ([blank] ++ S).
    now rewrite <- !app_assoc.
  - exists (D ++ [blank] ++ T ++ [blank] ++ P ++ [blank] ++ A ++ [blank; blank]), [].
    rewrite <- !app_assoc. now rewrite app_nil_r.
Qed.

End Layout.

(* ===================================================================== *)
(** * Properties of the generator *)
(* ===================================================================== *)

Lemma store_same (p : str) (n : node) (files : str -> option node) :
  store p n files p = Some n.
Proof. unfold store. now rewrite eqb_str_refl. Qed.

Lemma store_other (p q : str) (n : node) (files : str -> option node) :
  q <> p -> store p n files q = files q.
Proof. intros H. unfold store. now rewrite (eqb_str_neq H). Qed.

Lemma template_headers (cn : str) (ts ps acts : list str) :
  occurs_in (domain_header cn) (template cn ts ps acts) /\
  occurs_in (problem_header cn) (template cn ts ps acts).
Proof.
  unfold template. split.
  - exists [].
    exists (NL ++ section_types ts ++ NL ++ section_predicate ps ++ NL ++
            section_action acts ++ NL ++ problem_header cn ++ NL ++
            section_object ++ NL ++ section_init ++ NL ++ section_goal).
    reflexivity.
  - exists (domain_header cn ++ NL ++ section_types ts ++ NL ++
            section_predicate ps ++ NL ++ section_action acts ++ NL).
    exists (NL ++ section_object ++ NL ++ section_init ++ NL ++ section_goal).
    now rewrite <- !app_assoc.
Qed.

Lemma answered_with_written (filename name types predicates actions : str)
      (w : World) :
  answered_with filename name types predicates actions w ->
  left_at filename w = Some (File (skeleton name types predicates actions)).
Proof.
  intros [Hf [[rest Hin] [Hs [Ho Hr]]]].
  destruct (strip name) as [|c r] eqn:E; [contradiction|].
  unfold left_at.
  rewrite (init_written _ _ Hf Hin E Ho) by (now rewrite Hr).
  cbn [snd show set_fs fs]. apply store_same.
Qed.

(** ** C1 *)

(** C1, as stated, fails: in the world where the first answer is three
    spaces the name is empty after trimming and the run ends with an
    [IndexError], not with an exception of class EmptyInputError. *)
Lemma blank_name_not_empty_input_error :
  strip (lit "   ") = [] /\
  fst (init (lit "rocket.py") blank_name_world) =
    inl (IndexError (lit "string index out of range")) /\
  ~ raises "EmptyInputError" (fst (init (lit "rocket.py") blank_name_world)).
Proof.
  split; [reflexivity|]. split; [reflexivity|].
  intros [e [He Hc]]. vm_compute in He. inversion He; subst e.
  vm_compute in Hc. discriminate.
Qed.

(** C1 (amended): when the destination is free and the name answer is empty
    after trimming, the run ends with the [IndexError] that indexing the
    empty string raises, right after the name question: the other three
    questions are not asked and the file system is untouched. *)
Theorem init_blank_name (filename : str) (w : World) (name : str) (rest : list str) :
  fs w filename = None ->
  stdin w = name :: rest ->
  strip name = [] ->
  init filename w =
    (inl (IndexError (lit "string index out of range")),
     asked (lit "Name: ") rest w) /\
  raises "IndexError" (fst (init filename w)) /\
  fs (snd (init filename w)) = fs w /\
  stdout (snd (init filename w)) = stdout w ++ [Prompted (lit "Name: ")].
Proof.
  intros Hf Hin Hs. rewrite (init_empty_name _ _ Hf Hin Hs).
  repeat split. eexists. split; reflexivity.
Qed.

Lemma init_blank_name_witness :
  init (lit "rocket.py") blank_name_world =
    (inl (IndexError (lit "string index out of range")),
     asked (lit "Name: ")
           [lit "location stage"; lit "launched docked"; lit "launch"]
           blank_name_world).
Proof.
  apply (@init_blank_name (lit "rocket.py") blank_name_world (lit "   ")
           [lit "location stage"; lit "launched docked"; lit "launch"]);
    reflexivity.
Defined.

(** ** C2 *)

(** C2, as stated, fails: for the empty types answer the token list is not
    empty and neither is the section of the type declarations. *)
Lemma no_types_still_one_token :
  strip [] = [] /\
  types_of [] = [[]] /\
  types_of [] <> [] /\
  section_types (types_of []) <> [].
Proof. repeat split; try reflexivity; discriminate. Qed.

(** C2 (amended): if the types answer is empty after trimming, the split
    gives one token, the empty string, and the section of the type
    declarations is the one line made from it; the skeleton still holds the
    domain header and the problem header. *)
Theorem empty_types_answer (types : str) :
  strip types = [] ->
  (forall w rest,
     stdin w = types :: rest ->
     ask_types w = (inr [[]], asked (lit "Types (separated by space): ") rest w)) /\
  section_types [[]] = type_decl [] /\
  text_lines (section_types [[]]) = [type_decl_line []] /\
  forall name predicates actions,
    occurs_in (domain_header (class_name_of name))
              (skeleton name types predicates actions) /\
    occurs_in (problem_header (class_name_of name))
              (skeleton name types predicates actions).
Proof.
  intros Hs.
  assert (Ht : types_of types = [[]]) by (unfold types_of; now rewrite Hs).
  split.
  { intros w rest Hin. rewrite (ask_types_ok w Hin). now rewrite Ht. }
  repeat split; try reflexivity;
    unfold skeleton; apply template_headers.
Qed.

Lemma empty_types_answer_witness :
  ask_types (set_stdin [lit "  "] rocket_world) =
    (inr [[]],
     asked (lit "Types (separated by space): ") [] (set_stdin [lit "  "] rocket_world)) /\
  section_types [[]] = type_decl [].
Proof.
  destruct (@empty_types_answer (lit "  ") eq_refl) as [H1 [H2 _]].
  split; [apply H1; reflexivity | exact H2].
Defined.

(** ** C3 *)

Lemma predicate_block_no_blank (p : str) :
  nl_free p -> ~ In blank (text_lines (predicate_block p)).
Proof.
  intros H. rewrite (text_lines_predicate_block H).
  unfold predicate_block_lines. intros Hin. apply in_app_or in Hin as [Hin|Hin].
  - destruct Hin as [E|[E|[]]]; discriminate.
  - vm_compute in Hin. intuition discriminate.
Qed.

Lemma action_block_no_blank (a : str) :
  nl_free a -> ~ In blank (text_lines (action_block a)).
Proof.
  intros H. rewrite (text_lines_action_block H).
  unfold action_block_lines. intros Hin. apply in_app_or in Hin as [Hin|Hin].
  - destruct Hin as [E|[E|[]]]; discriminate.
  - vm_compute in Hin. intuition discriminate.
Qed.

(** C3, as stated, fails: with two predicates, and with two actions, the
    lines of the section are not the lines of the two blocks one right
    after the other; a blank line stands between them. *)
Lemma two_blocks_have_a_blank_line_between :
  ~ blocks_separated_by [] predicate_block section_predicate
      [lit "launched"; lit "docked"] /\
  ~ blocks_separated_by [] action_block section_action
      [lit "launch"; lit "land"] /\
  text_lines (section_predicate [lit "launched"; lit "docked"]) =
    text_lines (predicate_block (lit "launched")) ++ [blank] ++
    text_lines (predicate_block (lit "docked")) /\
  text_lines (section_action [lit "launch"; lit "land"]) =
    text_lines (action_block (lit "launch")) ++ [blank] ++
    text_lines (action_block (lit "land")).
Proof.
  repeat split; try reflexivity;
    unfold blocks_separated_by; vm_compute; discriminate.
Qed.

(** C3 (amended): consecutive stub blocks are joined by one newline
    character; as every block ends with a newline of its own, the lines of
    the section are the lines of the blocks with exactly one blank line
    between two consecutive blocks, and no block holds a blank line.  This
    holds for the predicate stubs and for the action stubs. *)
Theorem blocks_one_blank_line_apart (predicates actions : list str) :
  all_nl_free predicates ->
  all_nl_free actions ->
  (section_predicate predicates = Py.join NL (map predicate_block predicates) /\
   blocks_separated_by [blank] predicate_block section_predicate predicates /\
   forall p, In p predicates ->
     terminated (predicate_block p) = true /\
     ~ In blank (text_lines (predicate_block p))) /\
  (section_action actions = Py.join NL (map action_block actions) /\
   blocks_separated_by [blank] action_block section_action actions /\
   forall a, In a actions ->
     terminated (action_block a) = true /\
     ~ In blank (text_lines (action_block a))).
Proof.
  intros Hp Ha. pose proof (proj1 (all_nl_free_In _) Hp) as Hp'.
  pose proof (proj1 (all_nl_free_In _) Ha) as Ha'.
  split; (split; [reflexivity|]); split.
  - unfold blocks_separated_by. rewrite (text_lines_section_predicate Hp).
    f_equal. apply map_ext_in. intros p Hin.
    symmetry. apply text_lines_predicate_block. now apply Hp'.
  - intros p Hin. split.
    + rewrite predicate_block_unlines. apply terminated_unlines.
    + apply predicate_block_no_blank. now apply Hp'.
  - unfold blocks_separated_by. rewrite (text_lines_section_action Ha).
    f_equal. apply map_ext_in. intros a Hin.
    symmetry. apply text_lines_action_block. now apply Ha'.
  - intros a Hin. split.
    + rewrite action_block_unlines. apply terminated_unlines.
    + apply action_block_no_blank. now apply Ha'.
Qed.

Lemma blocks_one_blank_line_apart_witness :
  blocks_separated_by [blank] predicate_block section_predicate
    [lit "launched"; lit "docked"] /\
  blocks_separated_by [blank] action_block section_action [lit "launch"].
Proof.
  destruct (@blocks_one_blank_line_apart
              [lit "launched"; lit "docked"] [lit "launch"] eq_refl eq_refl)
    as [[_ [H1 _]] [_ [H2 _]]].
  split; [exact H1 | exact H2].
Defined.

(** ** C4 *)

(** C4, as stated, fails: in the skeleton of the rocket example the lines
    of the action stubs are followed by two blank lines, not one, before
    the line that opens the problem class. *)
Lemma two_blank_lines_before_problem_header :
  let out := text_lines (template (lit "Rocket") [lit "Location"; lit "Stage"]
                                  [lit "launched"; lit "docked"] [lit "launch"]) in
  gap 2 (text_lines (section_action [lit "launch"]))
        [problem_class_line (lit "Rocket")] out /\
  ~ gap 1 (text_lines (section_action [lit "launch"]))
          [problem_class_line (lit "Rocket")] out.
Proof.
  intros out. split.
  - split; [split; vm_compute; discriminate|].
    split; [split; vm_compute; discriminate|].
    exists (firstn 17 out), (skipn 26 out). vm_compute. reflexivity.
  - intros [_ [_ H]]. apply separated_by_infix in H.
    vm_compute in H. discriminate.
Qed.

(** C4 (amended): for a class name and token lists without newlines, none
    of the lists empty, the six sections follow one another in the
    skeleton with exactly one blank line between a section and the next,
    except before the problem header: [problem_header] itself begins with a
    newline, so that two blank lines stand between the action stubs and the
    line that opens the problem class. *)
Theorem sections_blank_lines (cn : str) (ts ps acts : list str) :
  nl_free cn -> all_nl_free ts -> all_nl_free ps -> all_nl_free acts ->
  ts <> [] -> ps <> [] -> acts <> [] ->
  let out := text_lines (template cn ts ps acts) in
  problem_header cn = NL ++ problem_class_line cn ++ NL /\
  gap 1 (text_lines (domain_header cn)) (text_lines (section_types ts)) out /\
  gap 1 (text_lines (section_types ts)) (text_lines (section_predicate ps)) out /\
  gap 1 (text_lines (section_predicate ps)) (text_lines (section_action acts)) out /\
  gap 2 (text_lines (section_action acts)) [problem_class_line cn] out /\
  gap 1 [problem_class_line cn] (text_lines section_stubs) out.
Proof.
  intros Hcn Hts Hps Hacts Nts Nps Nacts out. unfold out. clear out.
  rewrite (text_lines_template Hcn Hts Hps Hacts).
  rewrite (text_lines_domain_header Hcn), (text_lines_section_types Hts),
          (text_lines_section_predicate Hps), (text_lines_section_action Hacts).
  destruct (@gaps_of_layout
              (domain_header_lines cn) (map type_decl_line ts)
              (intercalate [blank] (map predicate_block_lines ps))
              (intercalate [blank] (map action_block_lines acts))
              (text_lines section_stubs)
              (template_lines cn ts ps acts) (problem_class_line cn) eq_refl)
    as [G1 [G2 [G3 [G4 G5]]]].
  pose proof (solid_domain_header_lines cn) as SD.
  pose proof (solid_type_lines Nts) as ST.
  pose proof (solid_predicate_lines Nps) as SP.
  pose proof (solid_action_lines Nacts) as SA.
  pose proof (solid_problem_class_line cn) as SC.
  pose proof solid_stubs as SS.
  split.
  { unfold problem_header, problem_class_line. now rewrite <- !app_assoc. }
  unfold gap. repeat match goal with |- _ /\ _ => split end; assumption.
Qed.

Lemma sections_blank_lines_witness :
  gap 2 (text_lines (section_action [lit "launch"]))
        [problem_class_line (lit "Rocket")]
        (text_lines (template (lit "Rocket") [lit "Location"; lit "Stage"]
                              [lit "launched"; lit "docked"] [lit "launch"])).
Proof.
  refine (proj1 (proj2 (proj2 (proj2 (proj2
    (@sections_blank_lines (lit "Rocket") [lit "Location"; lit "Stage"]
       [lit "launched"; lit "docked"] [lit "launch"]
       eq_refl eq_refl eq_refl eq_refl _ _ _)))))); discriminate.
Defined.

(** ** C5 *)

Lemma ascii_lower_code (c : ascii) :
  Py.is_ascii c = true -> Py.code (Py.lower_char c) = lower_code (Py.code c).
Proof. every_char c; intros H; vm_compute in H |- *; congruence. Qed.

Lemma ascii_upper_code (c : ascii) :
  Py.is_ascii c = true -> Py.code (Py.upper_char c) = upper_code (Py.code c).
Proof. every_char c; intros H; vm_compute in H |- *; congruence. Qed.

Lemma ascii_iscased (c : ascii) :
  Py.is_ascii c = true -> Py.iscased c = letter_code (Py.code c).
Proof. every_char c; intros H; vm_compute in H |- *; congruence. Qed.

(** Title case of an ASCII text, character by character. *)
Lemma title_from_codes (s : str) :
  ascii_text s = true ->
  forall b,
    List.length (Py.title_from b s) = List.length s /\
    forall j c,
      nth_error s j = Some c ->
      exists d,
        nth_error (Py.title_from b s) j = Some d /\
        Py.code d =
          if match j with
             | 0 => b
             | S k => match nth_error s k with
                      | Some p => letter_code (Py.code p)
                      | None => false
                      end
             end
          then lower_code (Py.code c) else upper_code (Py.code c).
Proof.
  induction s as [|c0 s IH]; intros Ha b.
  - split; [reflexivity|]. intros [|j] c H; discriminate.
  - unfold ascii_text in Ha. simpl in Ha. apply andb_true_iff in Ha as [Hc Hs].
    destruct (IH Hs (Py.iscased c0)) as [Hlen Hnth].
    assert (E : Py.title_from b (c0 :: s) =
                (if b then Py.lower_char c0 else Py.upper_char c0)
                  :: Py.title_from (Py.iscased c0) s).
    { simpl. destruct b; [reflexivity|]. now rewrite (ascii_title_str _ Hc). }
    rewrite E. split; [simpl; now rewrite Hlen|].
    intros [|j] c H.
    + simpl in H. inversion H; subst c. eexists. split; [reflexivity|].
      destruct b; [now apply ascii_lower_code | now apply ascii_upper_code].
    + simpl in H. destruct (Hnth j c H) as [d [Hd Hcode]].
      exists d. split; [exact Hd|]. rewrite Hcode.
      destruct j as [|j]; [|reflexivity].
      simpl. now rewrite (ascii_iscased _ Hc).
Qed.

(** C5, as stated, fails: the token [a1b] is rendered [A1B], the letter
    after the digit being uppercased, and not [A1b]; and the token made of
    a sharp s and [a], two letters, is rendered [Ssa], while the upper case
    of its first character followed by the lower case of the rest is
    [SSa]. *)
Lemma title_uppercases_after_a_digit :
  nth_error (Py.split space (strip (lit "a1b"))) 0 = Some (lit "a1b") /\
  fst (ask_types (set_stdin [lit "a1b"] rocket_world)) = inr [lit "A1B"] /\
  lit "A1B" <> Py.upper (firstn 1 (lit "a1b")) ++ Py.lower (skipn 1 (lit "a1b")) /\
  fst (ask_types (set_stdin [sharp_s_token] rocket_world)) = inr [lit "Ssa"] /\
  lit "Ssa" <>
    Py.upper (firstn 1 sharp_s_token) ++ Py.lower (skipn 1 sharp_s_token).
Proof.
  repeat split; try reflexivity; vm_compute; discriminate.
Qed.

(** C5 (amended): every type token made of ASCII characters is rendered in
    title case, character by character: a small letter at the start of
    the token or after a character that is not a letter becomes the
    capital, a capital after a letter becomes the small letter, and every
    other character stays.  Hence, for an ASCII token in which no letter
    comes after a character that is not a letter (any token made of ASCII
    letters only), the rendered token is the first character uppercased
    followed by the rest lowercased. *)
Theorem types_title_cased (w : World) (answer : str) (rest : list str)
        (i : nat) (t : str) :
  stdin w = answer :: rest ->
  nth_error (Py.split space (strip answer)) i = Some t ->
  ascii_text t = true ->
  exists types rendered,
    fst (ask_types w) = inr types /\
    nth_error types i = Some rendered /\
    List.length rendered = List.length t /\
    (forall j c,
       nth_error t j = Some c ->
       exists d,
         nth_error rendered j = Some d /\
         Py.code d = title_code t j (Py.code c)) /\
    (one_word t = true ->
     rendered = Py.upper (firstn 1 t) ++ Py.lower (skipn 1 t)).
Proof.
  intros Hin Hi Ha. exists (types_of answer), (Py.title t).
  destruct (title_from_codes t Ha false) as [Hlen Hnth].
  repeat match goal with |- _ /\ _ => split end.
  - now rewrite (ask_types_ok w Hin).
  - unfold types_of. rewrite nth_error_map, Hi. reflexivity.
  - exact Hlen.
  - intros j c Hc. destruct (Hnth j c Hc) as [d [Hd Hcode]].
    exists d. split; [exact Hd|]. rewrite Hcode.
    unfold title_code, after_letter. destruct j; reflexivity.
  - intros Hw. now apply title_one_word.
Qed.

Lemma types_title_cased_witness :
  exists types rendered,
    fst (ask_types (set_stdin [lit "location sTAGE"] rocket_world)) = inr types /\
    nth_error types 1 = Some rendered /\
    rendered = lit "Stage".
Proof.
  destruct (@types_title_cased (set_stdin [lit "location sTAGE"] rocket_world)
              (lit "location sTAGE") [] 1 (lit "sTAGE")
              eq_refl eq_refl eq_refl)
    as [types [rendered [H1 [H2 [_ [_ H3]]]]]].
  exists types, rendered. split; [exact H1|]. split; [exact H2|].
  rewrite (H3 eq_refl). reflexivity.
Defined.

(** ** C6 *)

(** C6: if the destination exists, [init] raises [FileExistsError] and
    leaves the world as it found it: no question was asked, no line was
    read, nothing was written. *)
Theorem init_refuses_existing (filename : str) (w : World) (n : node) :
  fs w filename = Some n ->
  init filename w = (inl (FileExistsError file_exists_message), w).
Proof.
  intros Hn. unfold init, bind, path_exists.
  rewrite Hn. reflexivity.
Qed.

Lemma init_refuses_existing_witness :
  init (lit "rocket.py") existing_world =
    (inl (FileExistsError file_exists_message), existing_world).
Proof.
  apply (@init_refuses_existing (lit "rocket.py") existing_world
           (File (lit "# mine"))).
  reflexivity.
Defined.

(** ** C7 *)

(** C7, as stated, fails: for the name made of a sharp s and [x] the class
    name is [SSx], the upper case of the sharp s being [SS]; its first
    character is not that upper case and its other characters are not those
    of the answer. *)
Lemma sharp_s_name_is_lengthened :
  strip sharp_s_name = sharp_s_name /\
  fst (ask_name (set_stdin [sharp_s_name] rocket_world)) = inr (lit "SSx") /\
  ~ first_upper_rest_same (strip sharp_s_name) (lit "SSx").
Proof.
  split; [reflexivity|]. split; [reflexivity|].
  intros [H _]. vm_compute in H. discriminate.
Qed.

(** C7 (amended): for a name answer that is not empty after trimming, the
    name question gives the upper case of the first character of the
    trimmed answer followed by its other characters as they were.  When
    that first character is an ASCII character its upper case is one
    character, the capital for a small letter a..z and the character
    itself otherwise, so that the class name is as long as the trimmed
    answer, begins with that character and goes on with the same
    characters; the upper case of other characters can be longer (the sharp
    s gives SS). *)
Theorem ask_name_capitalizes (w : World) (name : str) (rest : list str) :
  stdin w = name :: rest ->
  strip name <> [] ->
  exists class_name,
    ask_name w = (inr class_name, asked (lit "Name: ") rest w) /\
    class_name = Py.upper (firstn 1 (strip name)) ++ skipn 1 (strip name) /\
    (forall c,
       hd_error (strip name) = Some c ->
       Py.is_ascii c = true ->
       first_upper_rest_same (strip name) class_name /\
       List.length class_name = List.length (strip name) /\
       exists d,
         hd_error class_name = Some d /\
         Py.code d = upper_code (Py.code c)).
Proof.
  intros Hin Hs. destruct (strip name) as [|c r] eqn:E; [contradiction|].
  exists (Py.upper [c] ++ r). split; [exact (ask_name_ok w Hin E)|].
  split; [reflexivity|].
  intros c' Hc' Ha. simpl in Hc'. inversion Hc'; subst c'.
  assert (Hu : Py.upper [c] = [Py.upper_char c]).
  { unfold Py.upper. simpl. now rewrite (ascii_upper_str _ Ha). }
  unfold first_upper_rest_same. cbn [firstn]. rewrite Hu.
  split; [split; reflexivity|].
  split; [reflexivity|].
  exists (Py.upper_char c). split; [reflexivity|].
  now apply ascii_upper_code.
Qed.

Lemma ask_name_capitalizes_witness :
  exists class_name,
    ask_name rocket_world =
      (inr class_name,
       asked (lit "Name: ")
             [lit "location stage"; lit "launched docked"; lit "launch"]
             rocket_world) /\
    class_name = lit "Rocket".
Proof.
  destruct (@ask_name_capitalizes rocket_world (lit "rocket")
              [lit "location stage"; lit "launched docked"; lit "launch"]
              eq_refl ltac:(discriminate))
    as [class_name [H1 [H2 _]]].
  exists class_name. split; [exact H1|]. rewrite H2. reflexivity.
Defined.

(** ** C8 *)

(** C8: in the skeleton that a run writes for answers without newlines,
    there are as many predicate marker lines as the split of the predicates
    answer has tokens, as many action marker lines as the split of the
    actions answer has tokens, and as many type declaration lines as the
    split of the types answer has tokens; empty and repeated tokens count. *)
Theorem stubs_counted (filename name types predicates actions : str) (w : World) :
  nl_free name -> nl_free types -> nl_free predicates -> nl_free actions ->
  answered_with filename name types predicates actions w ->
  exists out,
    left_at filename w = Some (File out) /\
    count (eqb_str predicate_marker) (text_lines out) =
      List.length (Py.split space (strip predicates)) /\
    count (eqb_str action_marker) (text_lines out) =
      List.length (Py.split space (strip actions)) /\
    count is_type_decl (text_lines out) =
      List.length (Py.split space (strip types)).
Proof.
  intros Hn Ht Hp Ha Hw.
  exists (skeleton name types predicates actions).
  split; [now apply answered_with_written|].
  unfold skeleton.
  rewrite (text_lines_template (nl_free_class_name_of Hn) (nl_free_types_of Ht)
             (nl_free_predicates_of Hp) (nl_free_actions_of Ha)).
  rewrite count_predicate_markers, count_action_markers, count_type_decls.
  unfold predicates_of, actions_of, types_of. now rewrite !length_map.
Qed.

Lemma stubs_counted_witness :
  exists out,
    left_at (lit "rocket.py") rocket_world = Some (File out) /\
    count (eqb_str predicate_marker) (text_lines out) =
      List.length (Py.split space (strip (lit "launched docked"))) /\
    count (eqb_str action_marker) (text_lines out) =
      List.length (Py.split space (strip (lit "launch"))) /\
    count is_type_decl (text_lines out) =
      List.length (Py.split space (strip (lit "location stage"))).
Proof.
  apply (@stubs_counted (lit "rocket.py") (lit "rocket") (lit "location stage")
           (lit "launched docked") (lit "launch") rocket_world);
    try reflexivity.
  repeat split; try reflexivity; [eexists; reflexivity | discriminate].
Defined.

(** ** C9 *)

(** C9, as stated, fails: on a storage layer with room for 64 characters
    the run of the rocket example raises during the write and leaves the
    destination, which did not exist, holding the first 64 characters of the
    skeleton. *)
Lemma failed_write_leaves_a_partial_file :
  fs full_disk_world (lit "rocket.py") = None /\
  fst (init (lit "rocket.py") full_disk_world) = inl OSError /\
  left_at (lit "rocket.py") full_disk_world =
    Some (File (firstn 64 (skeleton (lit "rocket") (lit "location stage")
                                    (lit "launched docked") (lit "launch")))) /\
  ~ all_or_nothing (lit "rocket.py") full_disk_world.
Proof.
  repeat split; try reflexivity.
  intros [[_ [H _]] | H]; vm_compute in H; discriminate.
Qed.

(** C9 (amended): every run of [init] ends in one of three states.  Either
    the destination was free, the four questions were answered with a name
    that is not blank and the destination holds the whole skeleton; or the
    run raised and the file system is as it was; or the storage layer
    failed during the write, and the destination, created when it was
    opened, is left with the part of the skeleton that was written before
    the failure. *)
Theorem init_outcomes (filename : str) (w : World) :
  wrote_skeleton filename w \/
  wrote_nothing filename w \/
  write_failed filename w.
Proof.
  destruct (fs w filename) as [n|] eqn:Hf.
  { right; left. unfold wrote_nothing. rewrite (init_exists _ _ Hf).
    split; [eexists|]; reflexivity. }
  destruct (stdin w) as [|name r1] eqn:Hin.
  { right; left. unfold wrote_nothing. rewrite (init_no_answer _ _ Hf Hin).
    split; [eexists|]; reflexivity. }
  destruct (strip name) as [|c r] eqn:Hs.
  { right; left. unfold wrote_nothing. rewrite (init_empty_name _ _ Hf Hin Hs).
    split; [eexists|]; reflexivity. }
  destruct r1 as [|types r2].
  { right; left. unfold wrote_nothing. rewrite (init_one_answer _ _ Hf Hin Hs).
    split; [eexists|]; reflexivity. }
  destruct r2 as [|predicates r3].
  { right; left. unfold wrote_nothing. rewrite (init_two_answers _ _ Hf Hin Hs).
    split; [eexists|]; reflexivity. }
  destruct r3 as [|actions rest].
  { right; left. unfold wrote_nothing. rewrite (init_three_answers _ _ Hf Hin Hs).
    split; [eexists|]; reflexivity. }
  destruct (openable w filename) eqn:Ho.
  2:{ right; left. unfold wrote_nothing.
      rewrite (init_not_openable _ _ Hf Hin Hs Ho).
      split; [eexists|]; reflexivity. }
  assert (Hfull :
            match room w with
            | None => True
            | Some k => List.length (skeleton name types predicates actions) <= k
            end ->
            wrote_skeleton filename w).
  { intros Hr. unfold wrote_skeleton, left_at.
    rewrite (init_written _ _ Hf Hin Hs Ho Hr).
    split; [exact Hf|]. split; [reflexivity|].
    exists name, types, predicates, actions, rest.
    split; [exact Hin|]. split; [now rewrite Hs|].
    cbn [snd show set_fs fs]. apply store_same. }
  destruct (room w) as [k|] eqn:Hr; [|left; now apply Hfull].
  destruct (le_lt_dec (List.length (skeleton name types predicates actions)) k)
    as [Hle|Hlt]; [left; now apply Hfull|].
  right; right. unfold write_failed, left_at.
  rewrite (init_write_fails _ _ Hf Hin Hs Ho Hr Hlt).
  split; [exact Hf|]. split; [reflexivity|].
  exists name, types, predicates, actions, rest, k.
  repeat split; try assumption.
  cbn [snd set_fs fs]. apply store_same.
Qed.

(** ** C10 *)

(** C10: two runs that differ in the name answer only write skeletons that
    differ in the domain header and in the problem header only: the type
    declarations, the predicate stubs, the action stubs and the object,
    init and goal stubs are the same text in both. *)
Theorem name_changes_headers_only
        (filename name1 name2 types predicates actions : str) (w1 w2 : World) :
  answered_with filename name1 types predicates actions w1 ->
  answered_with filename name2 types predicates actions w2 ->
  exists body tail,
    body = section_types (types_of types) ++ NL ++
           section_predicate (predicates_of predicates) ++ NL ++
           section_action (actions_of actions) /\
    tail = section_object ++ NL ++ section_init ++ NL ++ section_goal /\
    left_at filename w1 =
      Some (File (domain_header (class_name_of name1) ++ NL ++ body ++ NL ++
                  problem_header (class_name_of name1) ++ NL ++ tail)) /\
    left_at filename w2 =
      Some (File (domain_header (class_name_of name2) ++ NL ++ body ++ NL ++
                  problem_header (class_name_of name2) ++ NL ++ tail)).
Proof.
  intros H1 H2. eexists. eexists. split; [reflexivity|]. split; [reflexivity|].
  rewrite (answered_with_written H1), (answered_with_written H2).
  unfold skeleton, template. now rewrite <- !app_assoc.
Qed.

Lemma name_changes_headers_only_witness :
  exists body tail,
    body = section_types (types_of (lit "location stage")) ++ NL ++
           section_predicate (predicates_of (lit "launched docked")) ++ NL ++
           section_action (actions_of (lit "launch")) /\
    tail = section_object ++ NL ++ section_init ++ NL ++ section_goal /\
    left_at (lit "rocket.py") rocket_world =
      Some (File (domain_header (class_name_of (lit "rocket")) ++ NL ++ body ++ NL ++
                  problem_header (class_name_of (lit "rocket")) ++ NL ++ tail)) /\
    left_at (lit "rocket.py") shuttle_world =
      Some (File (domain_header (class_name_of (lit "shuttle")) ++ NL ++ body ++ NL ++
                  problem_header (class_name_of (lit "shuttle")) ++ NL ++ tail)).
Proof.
  apply (@name_changes_headers_only (lit "rocket.py") (lit "rocket") (lit "shuttle")
           (lit "location stage") (lit "launched docked") (lit "launch")
           rocket_world shuttle_world).
  - repeat split; try reflexivity; [eexists; reflexivity | discriminate].
  - repeat split; try reflexivity; [eexists; reflexivity | discriminate].
Defined.

(* ===================================================================== *)
(** * Further properties: splitting and joining *)
(* ===================================================================== *)

Section Splitting.

Variable sep : ascii.

Lemma split_cons_sep (s : str) : Py.split sep (sep :: s) = [] :: Py.split sep s.
Proof. simpl. now rewrite Ascii.eqb_refl. Qed.

Lemma split_cons_other (c : ascii) (s : str) :
  c <> sep ->
  exists tok toks,
    Py.split sep s = tok :: toks /\ Py.split sep (c :: s) = (c :: tok) :: toks.
Proof.
  intros Hc. apply Ascii.eqb_neq in Hc. simpl. rewrite Hc.
  destruct (Py.split sep s) as [|tok toks] eqn:E.
  - now apply split_nonempty in E.
  - eauto.
Qed.

(** X5: joining the tokens of a split with the separator gives the text
    back. *)
Theorem join_split (s : str) : Py.join [sep] (Py.split sep s) = s.
Proof.
  induction s as [|c s IH]; [reflexivity|].
  destruct (Ascii.eqb c sep) eqn:Hc.
  - apply Ascii.eqb_eq in Hc. subst c. rewrite split_cons_sep.
    destruct (Py.split sep s) as [|tok toks] eqn:E.
    + now apply split_nonempty in E.
    + change (Py.join [sep] ([] :: tok :: toks))
        with ([] ++ [sep] ++ Py.join [sep] (tok :: toks)).
      now rewrite IH.
  - apply Ascii.eqb_neq in Hc.
    destruct (split_cons_other s Hc) as [tok [toks [E1 E2]]].
    rewrite E2. rewrite E1 in IH. rewrite <- IH.
    destruct toks; reflexivity.
Qed.

(** X6: no token of a split holds the separator, and there is one token
    more than there are separators in the text. *)
Theorem split_tokens (s : str) :
  (forall t, In t (Py.split sep s) -> ~ In sep t) /\
  List.length (Py.split sep s) = S (count_char sep s).
Proof.
  induction s as [|c s [IHt IHn]].
  - split; [|reflexivity]. intros t [<-|[]] [].
  - destruct (Ascii.eqb c sep) eqn:Hc.
    + apply Ascii.eqb_eq in Hc. subst c. rewrite split_cons_sep. split.
      * intros t [<-|Ht]; [intros []|now apply IHt].
      * unfold count_char in *. simpl. rewrite Ascii.eqb_refl. simpl.
        now rewrite IHn.
    + apply Ascii.eqb_neq in Hc.
      destruct (split_cons_other s Hc) as [tok [toks [E1 E2]]].
      rewrite E2. rewrite E1 in IHt, IHn. split.
      * intros t [<-|Ht].
        -- intros [E|Hin]; [now apply Hc|].
           apply (IHt tok); [now left|exact Hin].
        -- apply IHt. now right.
      * unfold count_char in *. simpl.
        assert (Hs : Ascii.eqb sep c = false)
          by (apply Ascii.eqb_neq; intros E; now apply Hc).
        rewrite Hs. exact IHn.
Qed.

(** A split goes through a separator: the tokens of [a ++ sep :: b] are
    the tokens of [a] followed by the tokens of [b]. *)
Lemma split_app_sep (a b : str) :
  Py.split sep (a ++ sep :: b) = Py.split sep a ++ Py.split sep b.
Proof.
  induction a as [|c a IH].
  - cbn [app]. now rewrite split_cons_sep.
  - destruct (Ascii.eqb c sep) eqn:Hc.
    + apply Ascii.eqb_eq in Hc. subst c.
      change ((sep :: a) ++ sep :: b) with (sep :: (a ++ sep :: b)).
      now rewrite !split_cons_sep, IH.
    + apply Ascii.eqb_neq in Hc.
      change ((c :: a) ++ sep :: b) with (c :: (a ++ sep :: b)).
      destruct (split_cons_other a Hc) as [tok [toks [E1 E2]]].
      destruct (split_cons_other (a ++ sep :: b) Hc) as [tok' [toks' [E1' E2']]].
      rewrite E2, E2'. rewrite IH, E1 in E1'.
      inversion E1'; subst. reflexivity.
Qed.

Lemma split_last_not_sep (s : str) (d : ascii) :
  d <> sep -> last (Py.split sep (s ++ [d])) [] <> [].
Proof.
  intros Hd. induction s as [|c s IH].
  - destruct (split_cons_other [] Hd) as [tok [toks [E1 E2]]].
    cbn [app]. rewrite E2. inversion E1; subst. discriminate.
  - change ((c :: s) ++ [d]) with (c :: (s ++ [d])).
    destruct (Ascii.eqb c sep) eqn:Hc.
    + apply Ascii.eqb_eq in Hc. subst c. rewrite split_cons_sep.
      destruct (Py.split sep (s ++ [d])) as [|tok toks] eqn:E.
      * now apply split_nonempty in E.
      * exact IH.
    + apply Ascii.eqb_neq in Hc.
      destruct (split_cons_other (s ++ [d]) Hc) as [tok [toks [E1 E2]]].
      rewrite E2. rewrite E1 in IH.
      destruct toks; [discriminate|exact IH].
Qed.

End Splitting.

(* ===================================================================== *)
(** * Further properties: trimming and casing *)
(* ===================================================================== *)

Section Trimming.

Lemma lstrip_parts (s : str) :
  exists pre, s = pre ++ Py.lstrip s /\ all_space pre = true.
Proof.
  induction s as [|c s [pre [E H]]].
  - exists []. split; reflexivity.
  - simpl. destruct (Py.isspace c) eqn:Hc.
    + exists (c :: pre). split; [simpl; now rewrite <- E|].
      unfold all_space in *. simpl. now rewrite Hc, H.
    + exists []. split; reflexivity.
Qed.

Lemma lstrip_starts_clean (s : str) : starts_clean (Py.lstrip s) = true.
Proof.
  induction s as [|c s IH]; [reflexivity|].
  simpl. destruct (Py.isspace c) eqn:Hc; [exact IH|].
  simpl. now rewrite Hc.
Qed.

Lemma all_space_rev (s : str) : all_space s = true -> all_space (rev s) = true.
Proof.
  unfold all_space. rewrite !forallb_forall. intros H c Hc.
  apply H. now apply in_rev.
Qed.

Lemma rstrip_parts (s : str) :
  exists post, s = Py.rstrip s ++ post /\ all_space post = true.
Proof.
  destruct (lstrip_parts (rev s)) as [pre [E H]].
  exists (rev pre). split; [|now apply all_space_rev].
  unfold Py.rstrip. rewrite <- rev_app_distr, <- E. now rewrite rev_involutive.
Qed.

Lemma rstrip_starts_clean (s : str) :
  starts_clean s = true -> starts_clean (Py.rstrip s) = true.
Proof.
  intros H. destruct (rstrip_parts s) as [post [E _]].
  destruct (Py.rstrip s) as [|c r]; [reflexivity|].
  rewrite E in H. exact H.
Qed.

Lemma lstrip_clean (s : str) : starts_clean s = true -> Py.lstrip s = s.
Proof.
  destruct s as [|c s]; [reflexivity|]. simpl. intros H.
  apply negb_true_iff in H. now rewrite H.
Qed.

(** X8: trimming removes white space at the two ends and nothing else: the
    answer is the trimmed answer between two runs of white space, and the
    trimmed answer neither begins nor ends with white space; trimming
    again changes nothing. *)
Theorem strip_ends (s : str) :
  (exists pre post,
     s = pre ++ strip s ++ post /\
     all_space pre = true /\ all_space post = true) /\
  starts_clean (strip s) = true /\
  starts_clean (rev (strip s)) = true /\
  strip (strip s) = strip s.
Proof.
  assert (H1 : starts_clean (strip s) = true).
  { unfold strip. apply rstrip_starts_clean, lstrip_starts_clean. }
  assert (H2 : starts_clean (rev (strip s)) = true).
  { unfold strip, Py.rstrip. rewrite rev_involutive. apply lstrip_starts_clean. }
  split; [|split; [exact H1|split; [exact H2|]]].
  - destruct (lstrip_parts s) as [pre [E1 Hpre]].
    destruct (rstrip_parts (Py.lstrip s)) as [post [E2 Hpost]].
    exists pre, post. split; [|split; assumption].
    unfold strip. now rewrite <- E2.
  - unfold strip at 1. rewrite (lstrip_clean _ H1).
    unfold Py.rstrip. rewrite (lstrip_clean _ H2). apply rev_involutive.
Qed.

Lemma clean_not_space (c : ascii) : Py.isspace c = false -> c <> space.
Proof. intros H ->. discriminate. Qed.

(** X9: when an answer is not blank, the first and the last of its tokens
    are not empty; empty tokens come from adjacent spaces inside the answer
    only. *)
Theorem outer_tokens_not_empty (answer : str) :
  strip answer <> [] ->
  hd [] (Py.split space (strip answer)) <> [] /\
  last (Py.split space (strip answer)) [] <> [].
Proof.
  intros Hne. destruct (strip_ends answer) as [_ [H1 [H2 _]]]. split.
  - destruct (strip answer) as [|c r]; [contradiction|].
    simpl in H1. apply negb_true_iff in H1.
    destruct (@split_cons_other space c r (@clean_not_space c H1))
      as [tok [toks [_ E]]].
    rewrite E. discriminate.
  - destruct (exists_last Hne) as [front [d E]]. rewrite E in *.
    rewrite rev_app_distr in H2. simpl in H2. apply negb_true_iff in H2.
    apply split_last_not_sep. now apply clean_not_space.
Qed.

Lemma outer_tokens_not_empty_witness :
  hd [] (Py.split space (strip (lit " launched  docked "))) <> [] /\
  last (Py.split space (strip (lit " launched  docked "))) [] <> [].
Proof.
  apply (@outer_tokens_not_empty (lit " launched  docked ")).
  vm_compute. discriminate.
Defined.

End Trimming.

Section Casing.

Lemma lower_char_not_upper (c : ascii) : Py.isupper (Py.lower_char c) = false.
Proof. every_char c; reflexivity. Qed.

Lemma upper_char_not_lower (c : ascii) : Py.islower (Py.upper_char c) = false.
Proof. every_char c; reflexivity. Qed.

Lemma upper_char_iscased (c : ascii) :
  Py.iscased (Py.upper_char c) = Py.iscased c.
Proof. every_char c; reflexivity. Qed.

Lemma lower_char_iscased (c : ascii) :
  Py.iscased (Py.lower_char c) = Py.iscased c.
Proof. every_char c; reflexivity. Qed.

Lemma upper_char_ascii (c : ascii) :
  Py.is_ascii (Py.upper_char c) = Py.is_ascii c.
Proof. every_char c; reflexivity. Qed.

Lemma lower_char_ascii (c : ascii) :
  Py.is_ascii c = true -> Py.is_ascii (Py.lower_char c) = true.
Proof. every_char c; intros H; vm_compute in H |- *; congruence. Qed.

Lemma ascii_not_upper_fixed (c : ascii) :
  Py.is_ascii c = true -> Py.isupper c = false -> Py.lower_char c = c.
Proof. every_char c; intros H1 H2; vm_compute in H1, H2 |- *; congruence. Qed.

Lemma ascii_not_lower_fixed (c : ascii) :
  Py.is_ascii c = true -> Py.islower c = false -> Py.upper_char c = c.
Proof. every_char c; intros H1 H2; vm_compute in H1, H2 |- *; congruence. Qed.

(** The upper case of a character that is not white space starts with a
    character that is neither white space nor a small letter a..z. *)
Lemma upper_str_initial (c : ascii) :
  Py.isspace c = false ->
  exists d tl,
    Py.upper_str c = d :: tl /\ Py.islower d = false /\ Py.isspace d = false.
Proof.
  every_char c; intros H; vm_compute in H; try discriminate H;
    eexists; eexists; (split; [reflexivity|split; reflexivity]).
Qed.

Lemma no_upper_lower (s : str) : no_upper (Py.lower s) = true.
Proof.
  unfold no_upper, Py.lower. induction s as [|c s IH]; [reflexivity|].
  simpl. now rewrite lower_char_not_upper, IH.
Qed.

(** On ASCII text, title case maps one character to one. *)
Lemma title_from_ascii (s : str) :
  ascii_text s = true ->
  forall b,
    Py.title_from b s =
      match s with
      | [] => []
      | c :: s' =>
          (if b then Py.lower_char c else Py.upper_char c)
            :: Py.title_from (Py.iscased c) s'
      end.
Proof.
  destruct s as [|c s]; intros Ha b; [reflexivity|].
  unfold ascii_text in Ha. simpl in Ha. apply andb_true_iff in Ha as [Hc _].
  simpl. destruct b; [reflexivity|]. now rewrite (ascii_title_str _ Hc).
Qed.

Lemma ascii_text_tail (c : ascii) (s : str) :
  ascii_text (c :: s) = true -> Py.is_ascii c = true /\ ascii_text s = true.
Proof. unfold ascii_text. simpl. apply andb_true_iff. Qed.

Lemma title_from_ascii_text (s : str) :
  ascii_text s = true -> forall b, ascii_text (Py.title_from b s) = true.
Proof.
  induction s as [|c s IH]; intros Ha b; [reflexivity|].
  rewrite (title_from_ascii _ Ha). apply ascii_text_tail in Ha as [Hc Hs].
  unfold ascii_text. simpl. fold (ascii_text (Py.title_from (Py.iscased c) s)).
  rewrite (IH Hs), andb_true_r.
  destruct b; [now apply lower_char_ascii | now rewrite upper_char_ascii].
Qed.

Lemma title_from_cased (s : str) :
  ascii_text s = true ->
  forall b, title_cased b (Py.title_from b s) = true.
Proof.
  induction s as [|c s IH]; intros Ha b; [reflexivity|].
  rewrite (title_from_ascii _ Ha). apply ascii_text_tail in Ha as [Hc Hs].
  simpl. destruct b.
  - now rewrite lower_char_not_upper, lower_char_iscased, (IH Hs).
  - now rewrite upper_char_not_lower, upper_char_iscased, (IH Hs).
Qed.

Lemma title_from_fixed (s : str) :
  ascii_text s = true ->
  forall b, title_cased b s = true -> Py.title_from b s = s.
Proof.
  induction s as [|c s IH]; intros Ha b; [reflexivity|].
  rewrite (title_from_ascii _ Ha). apply ascii_text_tail in Ha as [Hc Hs].
  simpl. intros H. apply andb_true_iff in H as [Hb Ht].
  apply negb_true_iff in Hb. f_equal; [|now apply IH].
  destruct b; [now apply ascii_not_upper_fixed | now apply ascii_not_lower_fixed].
Qed.

Lemma split_In (sep : ascii) (s : str) :
  forall t c, In t (Py.split sep s) -> In c t -> In c s.
Proof.
  induction s as [|c0 s IH]; intros t c Ht Hc.
  - destruct Ht as [<-|[]]. exact Hc.
  - destruct (Ascii.eqb c0 sep) eqn:E.
    + apply Ascii.eqb_eq in E. subst c0. rewrite split_cons_sep in Ht.
      destruct Ht as [<-|Ht]; [contradiction|]. right. now apply (IH t).
    + apply Ascii.eqb_neq in E.
      destruct (@split_cons_other sep c0 s E) as [tok [toks [E1 E2]]].
      rewrite E2 in Ht. rewrite E1 in IH. destruct Ht as [<-|Ht].
      * destruct Hc as [->|Hc]; [now left|]. right.
        apply (IH tok); [now left|exact Hc].
      * right. apply (IH t); [now right|exact Hc].
Qed.

Lemma ascii_tokens (answer : str) (t : str) :
  ascii_text answer = true ->
  In t (Py.split space (strip answer)) ->
  ascii_text t = true.
Proof.
  unfold ascii_text. rewrite !forallb_forall. intros Ha Ht c Hc.
  apply Ha. apply strip_In. now apply (split_In space (strip answer) t).
Qed.

(** X10: every predicate token and every action token is free of upper-case
    letters. *)
Theorem stub_names_lower_case (answer : str) (t : str) :
  In t (predicates_of answer) \/ In t (actions_of answer) ->
  no_upper t = true.
Proof.
  assert (H : forall u, In u (predicates_of answer) -> no_upper u = true).
  { intros u Hu. unfold predicates_of in Hu.
    apply in_map_iff in Hu as [v [<- _]]. apply no_upper_lower. }
  intros [Ht|Ht]; now apply H.
Qed.

Lemma stub_names_lower_case_witness : no_upper (lit "launched") = true.
Proof.
  apply (@stub_names_lower_case (lit "LAUNCHED Docked") (lit "launched")).
  left. left. reflexivity.
Defined.

(** X15: every type token of an ASCII answer is in title case (no small
    letter a..z at its start or after a character that is not a letter, no
    capital A..Z after a letter), and title-casing it again leaves it as it
    is. *)
Theorem type_names_title_case (answer : str) (t : str) :
  ascii_text answer = true ->
  In t (types_of answer) ->
  title_cased false t = true /\ Py.title t = t.
Proof.
  intros Ha Ht. unfold types_of in Ht. apply in_map_iff in Ht as [v [<- Hv]].
  pose proof (ascii_tokens answer v Ha Hv) as Hav.
  assert (H : title_cased false (Py.title v) = true)
    by now apply title_from_cased.
  split; [exact H|]. unfold Py.title at 1.
  apply title_from_fixed; [|exact H]. now apply title_from_ascii_text.
Qed.

Lemma type_names_title_case_witness :
  title_cased false (lit "O'Neil") = true /\ Py.title (lit "O'Neil") = lit "O'Neil".
Proof.
  apply (@type_names_title_case (lit "location o'neil") (lit "O'Neil")).
  - reflexivity.
  - right. left. reflexivity.
Defined.

(** X11: for a name answer that is not blank, the class name that the name
    question gives is not shorter than the trimmed answer and begins
    neither with white space nor with a small letter a..z. *)
Theorem class_name_initial (w : World) (name : str) (rest : list str) :
  stdin w = name :: rest ->
  strip name <> [] ->
  exists d r,
    fst (ask_name w) = inr (d :: r) /\
    List.length (strip name) <= List.length (d :: r) /\
    Py.islower d = false /\
    Py.isspace d = false.
Proof.
  intros Hin Hne. destruct (strip_ends name) as [_ [H1 _]].
  destruct (strip name) as [|c r] eqn:E; [contradiction|].
  simpl in H1. apply negb_true_iff in H1.
  destruct (upper_str_initial c H1) as [d [tl [Hu [Hl Hsp]]]].
  exists d, (tl ++ r). rewrite (ask_name_ok w Hin E).
  assert (Hup : Py.upper [c] = d :: tl).
  { unfold Py.upper. simpl. now rewrite Hu, app_nil_r. }
  rewrite Hup. repeat match goal with |- _ /\ _ => split end.
  - reflexivity.
  - simpl. rewrite length_app. lia.
  - exact Hl.
  - exact Hsp.
Qed.

Lemma class_name_initial_witness :
  exists d r,
    fst (ask_name rocket_world) = inr (d :: r) /\
    List.length (strip (lit "rocket")) <= List.length (d :: r) /\
    Py.islower d = false /\
    Py.isspace d = false.
Proof.
  apply (@class_name_initial rocket_world (lit "rocket")
           [lit "location stage"; lit "launched docked"; lit "launch"]).
  - reflexivity.
  - discriminate.
Defined.

End Casing.

(* ===================================================================== *)
(** * Further properties: what a run does to the world *)
(* ===================================================================== *)

Lemma fs_show (w : World) (e : event) : fs (show e w) = fs w.
Proof. reflexivity. Qed.
Lemma stdin_show (w : World) (e : event) : stdin (show e w) = stdin w.
Proof. reflexivity. Qed.
Lemma stdout_show (w : World) (e : event) : stdout (show e w) = stdout w ++ [e].
Proof. reflexivity. Qed.
Lemma openable_show (w : World) (e : event) : openable (show e w) = openable w.
Proof. reflexivity. Qed.
Lemma room_show (w : World) (e : event) : room (show e w) = room w.
Proof. reflexivity. Qed.

Lemma fs_set_fs (w : World) (files : str -> option node) : fs (set_fs files w) = files.
Proof. reflexivity. Qed.
Lemma stdin_set_fs (w : World) (files : str -> option node) : stdin (set_fs files w) = stdin w.
Proof. reflexivity. Qed.
Lemma stdout_set_fs (w : World) (files : str -> option node) : stdout (set_fs files w) = stdout w.
Proof. reflexivity. Qed.
Lemma openable_set_fs (w : World) (files : str -> option node) :
  openable (set_fs files w) = openable w.
Proof. reflexivity. Qed.
Lemma room_set_fs (w : World) (files : str -> option node) : room (set_fs files w) = room w.
Proof. reflexivity. Qed.

Lemma fs_asked (w : World) (p : str) (rest : list str) : fs (asked p rest w) = fs w.
Proof. reflexivity. Qed.
Lemma stdin_asked (w : World) (p : str) (rest : list str) : stdin (asked p rest w) = rest.
Proof. reflexivity. Qed.
Lemma stdout_asked (w : World) (p : str) (rest : list str) :
  stdout (asked p rest w) = stdout w ++ [Prompted p].
Proof. reflexivity. Qed.
Lemma openable_asked (w : World) (p : str) (rest : list str) :
  openable (asked p rest w) = openable w.
Proof. reflexivity. Qed.
Lemma room_asked (w : World) (p : str) (rest : list str) : room (asked p rest w) = room w.
Proof. reflexivity. Qed.

Lemma fs_questioned (w : World) (rest : list str) : fs (questioned rest w) = fs w.
Proof. reflexivity. Qed.
Lemma stdin_questioned (w : World) (rest : list str) : stdin (questioned rest w) = rest.
Proof. reflexivity. Qed.
Lemma stdout_questioned (w : World) (rest : list str) :
  stdout (questioned rest w) = stdout w ++ four_prompts.
Proof.
  unfold questioned. rewrite !stdout_asked, <- !app_assoc. reflexivity.
Qed.
Lemma openable_questioned (w : World) (rest : list str) :
  openable (questioned rest w) = openable w.
Proof. reflexivity. Qed.
Lemma room_questioned (w : World) (rest : list str) : room (questioned rest w) = room w.
Proof. reflexivity. Qed.


Lemma fs_closed_with (w : World) (files : str -> option node) :
  fs (closed_with files w) = files.
Proof. reflexivity. Qed.
Lemma stdin_closed_with (w : World) (files : str -> option node) :
  stdin (closed_with files w) = stdin w.
Proof. reflexivity. Qed.
Lemma stdout_closed_with (w : World) (files : str -> option node) :
  stdout (closed_with files w) = stdout w.
Proof. reflexivity. Qed.
Lemma openable_closed_with (w : World) (files : str -> option node) :
  openable (closed_with files w) = openable w.
Proof. reflexivity. Qed.
Lemma room_closed_with (w : World) (files : str -> option node) :
  room (closed_with files w) = room w.
Proof. reflexivity. Qed.

Create Rewrite HintDb world.

#[local] Hint Rewrite
  fs_show stdin_show stdout_show openable_show room_show
  fs_set_fs stdin_set_fs stdout_set_fs openable_set_fs room_set_fs
  fs_questioned stdin_questioned stdout_questioned openable_questioned
  room_questioned
  fs_asked stdin_asked stdout_asked openable_asked room_asked
  fs_closed_with stdin_closed_with stdout_closed_with openable_closed_with
  room_closed_with : world.

Section Effects.

Variable filename : str.
Variable w : World.

Ltac effects read shown tl :=
  exists read, shown, tl; cbn [snd]; autorewrite with world;
  repeat match goal with |- _ /\ _ => split end;
  try (match goal with |- _ <= _ => repeat constructor end);
  try reflexivity; try (cbn [skipn]; assumption);
  try (rewrite <- ?app_assoc; reflexivity);
  try (left; reflexivity).

(** Every run, whatever its end: [read] lines were read, [shown] questions
    were asked, [tl] was shown after them. *)
Lemma init_effects :
  exists read shown tl,
    read <= shown /\ shown <= S read /\ shown <= 4 /\
    stdin (snd (init filename w)) = skipn read (stdin w) /\
    stdout (snd (init filename w)) = stdout w ++ firstn shown four_prompts ++ tl /\
    (tl = [] \/ tl = [Printed (lit "File written to " ++ filename)]) /\
    openable (snd (init filename w)) = openable w /\
    room (snd (init filename w)) = room w /\
    (fs (snd (init filename w)) = fs w \/
     exists content,
       fs (snd (init filename w)) =
         store filename (File content) (store filename (File []) (fs w))).
Proof.
  destruct (fs w filename) as [n|] eqn:Hf.
  { rewrite (init_exists _ _ Hf). effects 0 0 (@nil event).
    now rewrite app_nil_r. }
  destruct (stdin w) as [|name r1] eqn:Hin.
  { rewrite (init_no_answer _ _ Hf Hin). effects 0 1 (@nil event). }
  destruct (strip name) as [|c r] eqn:Hs.
  { rewrite (init_empty_name _ _ Hf Hin Hs). effects 1 1 (@nil event). }
  destruct r1 as [|types r2].
  { rewrite (init_one_answer _ _ Hf Hin Hs). effects 1 2 (@nil event). }
  destruct r2 as [|predicates r3].
  { rewrite (init_two_answers _ _ Hf Hin Hs). effects 2 3 (@nil event). }
  destruct r3 as [|actions rest].
  { rewrite (init_three_answers _ _ Hf Hin Hs). effects 3 4 (@nil event). }
  destruct (openable w filename) eqn:Ho.
  2:{ rewrite (init_not_openable _ _ Hf Hin Hs Ho). effects 4 4 (@nil event). }
  destruct (room w) as [k|] eqn:Hr.
  - destruct (le_lt_dec (List.length (skeleton name types predicates actions)) k)
      as [Hle|Hlt].
    + rewrite (init_written _ _ Hf Hin Hs Ho) by (rewrite Hr; exact Hle).
      effects 4 4 [Printed (lit "File written to " ++ filename)].
      * now right.
      * right. eexists. reflexivity.
    + rewrite (init_write_fails _ _ Hf Hin Hs Ho Hr Hlt).
      destruct (List.length (skeleton name types predicates actions) <=? buffer w).
      * effects 4 4 [Printed (lit "File written to " ++ filename)].
        -- now right.
        -- right. eexists. reflexivity.
      * effects 4 4 (@nil event).
        right. eexists. reflexivity.
  - rewrite (init_written _ _ Hf Hin Hs Ho) by (rewrite Hr; exact I).
    effects 4 4 [Printed (lit "File written to " ++ filename)].
    + now right.
    + right. eexists. reflexivity.
Qed.

End Effects.

Section RunProperties.

(** X1: a run that succeeds asks the four questions in the order Name,
    Types, Predicates, Actions, reads exactly the four answers, and shows
    the confirmation with the name of the destination last. *)
Theorem init_conversation (filename name types predicates actions : str)
        (rest : list str) (w : World) :
  fs w filename = None ->
  stdin w = name :: types :: predicates :: actions :: rest ->
  strip name <> [] ->
  openable w filename = true ->
  match room w with
  | None => True
  | Some k => List.length (skeleton name types predicates actions) <= k
  end ->
  fst (init filename w) = inr tt /\
  stdin (snd (init filename w)) = rest /\
  stdout (snd (init filename w)) =
    stdout w ++ four_prompts ++ [Printed (lit "File written to " ++ filename)].
Proof.
  intros Hf Hin Hne Ho Hr.
  destruct (strip name) as [|c r] eqn:Hs; [contradiction|].
  rewrite (init_written _ _ Hf Hin Hs Ho Hr). cbn [fst snd].
  autorewrite with world.
  split; [reflexivity|]. split; [reflexivity|].
  now rewrite <- !app_assoc.
Qed.

Lemma init_conversation_witness :
  fst (init (lit "rocket.py") rocket_world) = inr tt /\
  stdin (snd (init (lit "rocket.py") rocket_world)) = [] /\
  stdout (snd (init (lit "rocket.py") rocket_world)) =
    stdout rocket_world ++ four_prompts ++
    [Printed (lit "File written to " ++ lit "rocket.py")].
Proof.
  apply (@init_conversation (lit "rocket.py") (lit "rocket") (lit "location stage")
           (lit "launched docked") (lit "launch") [] rocket_world).
  all: first [reflexivity | discriminate | exact I].
Defined.

(** X2: when the destination is free and the input ends before the fourth
    answer (no answered name being blank), the run raises [EOFError] at the
    first question that finds no answer, after reading every line there
    was; the file system is as it was. *)
Theorem init_too_few_answers (filename : str) (w : World) :
  fs w filename = None ->
  List.length (stdin w) < 4 ->
  (forall name rest, stdin w = name :: rest -> strip name <> []) ->
  raises "EOFError" (fst (init filename w)) /\
  fs (snd (init filename w)) = fs w /\
  stdin (snd (init filename w)) = [] /\
  stdout (snd (init filename w)) =
    stdout w ++ firstn (S (List.length (stdin w))) four_prompts.
Proof.
  intros Hf Hlen Hname.
  assert (Hraise : raises "EOFError" (inl (EOFError (lit "EOF when reading a line")))).
  { eexists. split; reflexivity. }
  destruct (stdin w) as [|name r1] eqn:Hin.
  { rewrite (init_no_answer _ _ Hf Hin). cbn [fst snd].
    repeat match goal with |- _ /\ _ => split end;
      try exact Hraise; try reflexivity; exact Hin. }
  destruct (strip name) as [|c r] eqn:Hs.
  { exfalso. apply (Hname name r1 eq_refl). exact Hs. }
  destruct r1 as [|types r2].
  { rewrite (init_one_answer _ _ Hf Hin Hs). cbn [fst snd].
    repeat match goal with |- _ /\ _ => split end;
      try exact Hraise; try reflexivity.
    autorewrite with world. now rewrite <- !app_assoc. }
  destruct r2 as [|predicates r3].
  { rewrite (init_two_answers _ _ Hf Hin Hs). cbn [fst snd].
    repeat match goal with |- _ /\ _ => split end;
      try exact Hraise; try reflexivity.
    autorewrite with world. now rewrite <- !app_assoc. }
  destruct r3 as [|actions rest].
  { rewrite (init_three_answers _ _ Hf Hin Hs). cbn [fst snd].
    repeat match goal with |- _ /\ _ => split end;
      try exact Hraise; try reflexivity.
    autorewrite with world. now rewrite <- !app_assoc. }
  simpl in Hlen. lia.
Qed.

Lemma init_too_few_answers_witness :
  raises "EOFError"
    (fst (init (lit "rocket.py")
               (set_stdin [lit "rocket"; lit "location stage"] rocket_world))).
Proof.
  apply (@init_too_few_answers (lit "rocket.py")
           (set_stdin [lit "rocket"; lit "location stage"] rocket_world)).
  - reflexivity.
  - simpl. lia.
  - intros name rest H. inversion H. discriminate.
Defined.

(** X3: whatever the end of the run, no file other than the destination is
    created or changed. *)
Theorem init_touches_destination_only (filename : str) (w : World) (q : str) :
  q <> filename ->
  fs (snd (init filename w)) q = fs w q.
Proof.
  intros Hq.
  destruct (init_effects filename w)
    as [read [shown [tl [_ [_ [_ [_ [_ [_ [_ [_ [E|[content E]]]]]]]]]]]]];
    rewrite E; [reflexivity|].
  now rewrite !(store_other _ _ Hq).
Qed.

Lemma init_touches_destination_only_witness :
  fs (snd (init (lit "rocket.py") existing_world)) (lit "shuttle.py") =
    fs existing_world (lit "shuttle.py").
Proof.
  apply (@init_touches_destination_only (lit "rocket.py") existing_world
           (lit "shuttle.py")).
  discriminate.
Defined.

(** X4: whatever the end of the run, at most four lines are read, from the
    front of the input; the questions shown are the first ones of the fixed
    list, one for every line read and at most one more; nothing else is
    shown but, possibly, the confirmation at the very end; the storage
    layer is left as it was. *)
Theorem init_reads_and_shows (filename : str) (w : World) :
  exists read shown tl,
    read <= shown /\ shown <= S read /\ shown <= 4 /\
    stdin (snd (init filename w)) = skipn read (stdin w) /\
    stdout (snd (init filename w)) = stdout w ++ firstn shown four_prompts ++ tl /\
    (tl = [] \/ tl = [Printed (lit "File written to " ++ filename)]) /\
    openable (snd (init filename w)) = openable w /\
    room (snd (init filename w)) = room w.
Proof.
  destruct (init_effects filename w)
    as [read [shown [tl [H1 [H2 [H3 [H4 [H5 [H6 [H7 [H8 _]]]]]]]]]]].
  exists read, shown, tl.
  repeat match goal with |- _ /\ _ => split end; assumption.
Qed.

(** X13: the destination is opened after the four questions only: when it
    cannot be opened, the run raises [OSError] with the four answers
    already read, no confirmation shown and the file system as it was. *)
Theorem init_cannot_open (filename name types predicates actions : str)
        (rest : list str) (w : World) :
  fs w filename = None ->
  stdin w = name :: types :: predicates :: actions :: rest ->
  strip name <> [] ->
  openable w filename = false ->
  fst (init filename w) = inl OSError /\
  fs (snd (init filename w)) = fs w /\
  stdin (snd (init filename w)) = rest /\
  stdout (snd (init filename w)) = stdout w ++ four_prompts.
Proof.
  intros Hf Hin Hne Ho.
  destruct (strip name) as [|c r] eqn:Hs; [contradiction|].
  rewrite (init_not_openable _ _ Hf Hin Hs Ho). cbn [fst snd].
  autorewrite with world.
  repeat match goal with |- _ /\ _ => split end; reflexivity.
Qed.

Lemma init_cannot_open_witness :
  fst (init (lit "rocket.py") read_only_world) = inl OSError /\
  fs (snd (init (lit "rocket.py") read_only_world)) = fs read_only_world /\
  stdin (snd (init (lit "rocket.py") read_only_world)) = [] /\
  stdout (snd (init (lit "rocket.py") read_only_world)) =
    stdout read_only_world ++ four_prompts.
Proof.
  apply (@init_cannot_open (lit "rocket.py") (lit "rocket") (lit "location stage")
           (lit "launched docked") (lit "launch") [] read_only_world);
    try reflexivity.
  discriminate.
Defined.

End RunProperties.

(* ===================================================================== *)
(** * Further properties: the written skeleton *)
(* ===================================================================== *)

Section SkeletonProperties.

Lemma In_intercalate (A : Type) (g : A -> list str) (xs : list A)
      (x : A) (l : str) :
  In x xs -> In l (g x) -> In l (intercalate [blank] (map g xs)).
Proof.
  intros Hx Hl. induction xs as [|y xs IH]; [contradiction|].
  destruct xs as [|z xs].
  - destruct Hx as [->|[]]. exact Hl.
  - change (intercalate [blank] (map g (y :: z :: xs)))
      with (g y ++ [blank] ++ intercalate [blank] (map g (z :: xs))).
    apply in_or_app. destruct Hx as [->|Hx]; [now left|].
    right. apply in_or_app. right. now apply IH.
Qed.

Lemma lower_tokens_of_double_space (answer a b : str) :
  strip answer = a ++ [space; space] ++ b ->
  In [] (predicates_of answer).
Proof.
  intros E. unfold predicates_of. rewrite E.
  change (a ++ [space; space] ++ b) with (a ++ space :: (space :: b)).
  rewrite split_app_sep, split_cons_sep, map_app.
  apply in_or_app. right. now left.
Qed.

(** X7: two adjacent spaces inside an answer give an empty token, which is
    not dropped: the predicate stubs, and likewise the action stubs, then
    hold a method whose name is empty. *)
Theorem double_space_empty_stub (answer a b : str) :
  nl_free answer ->
  strip answer = a ++ [space; space] ++ b ->
  In [] (Py.split space (strip answer)) /\
  In (def_line []) (text_lines (section_predicate (predicates_of answer))) /\
  In (def_line []) (text_lines (section_action (actions_of answer))).
Proof.
  intros Hnl E. pose proof (lower_tokens_of_double_space answer a b E) as Hin.
  split; [|split].
  - rewrite E.
    change (a ++ [space; space] ++ b) with (a ++ space :: (space :: b)).
    rewrite split_app_sep, split_cons_sep.
    apply in_or_app. right. now left.
  - rewrite (text_lines_section_predicate (nl_free_predicates_of Hnl)).
    apply (In_intercalate predicate_block_lines _ [] _ Hin).
    right. now left.
  - rewrite (text_lines_section_action (nl_free_actions_of Hnl)).
    apply (In_intercalate action_block_lines _ [] _ Hin).
    right. now left.
Qed.

Lemma double_space_empty_stub_witness :
  In [] (Py.split space (strip (lit "launched  docked"))) /\
  In (def_line [])
     (text_lines (section_predicate (predicates_of (lit "launched  docked")))) /\
  In (def_line [])
     (text_lines (section_action (actions_of (lit "launched  docked")))).
Proof.
  apply (@double_space_empty_stub (lit "launched  docked")
           (lit "launched") (lit "docked")); reflexivity.
Defined.

Lemma filter_none (f : str -> bool) (ls : list str) :
  count f ls = 0 -> filter f ls = [].
Proof. unfold count. apply length_zero_iff_nil. Qed.

Lemma filter_all (f : str -> bool) (ls : list str) :
  (forall l, In l ls -> f l = true) -> filter f ls = ls.
Proof.
  induction ls as [|l ls IH]; intros H; [reflexivity|].
  simpl. rewrite (H l) by now left. f_equal.
  apply IH. intros x Hx. apply H. now right.
Qed.

(** The lines of the skeleton that are type declarations are the lines of
    the types, in their order. *)
Lemma filter_type_decls (cn : str) (ts ps acts : list str) :
  filter is_type_decl (template_lines cn ts ps acts) = map type_decl_line ts.
Proof.
  pose proof (count_type_decls cn ts ps acts) as Hc.
  unfold template_lines in *.
  set (D := domain_header_lines cn) in *.
  set (T := map type_decl_line ts) in *.
  set (R := [blank] ++
            intercalate [blank] (map predicate_block_lines ps) ++ [blank] ++
            intercalate [blank] (map action_block_lines acts) ++ [blank] ++
            [blank; problem_class_line cn] ++ [blank] ++
            text_lines section_stubs) in *.
  assert (HT : filter is_type_decl T = T).
  { apply filter_all. intros l Hl. apply in_map_iff in Hl as [t [<- _]].
    apply is_type_decl_type_decl_line. }
  rewrite !count_app in Hc.
  assert (HcT : count is_type_decl T = List.length ts).
  { unfold count. rewrite HT. apply length_map. }
  rewrite HcT in Hc.
  rewrite !filter_app, HT.
  rewrite (@filter_none is_type_decl D) by lia.
  rewrite (@filter_none is_type_decl [blank]) by lia.
  rewrite (@filter_none is_type_decl R) by lia.
  simpl. apply app_nil_r.
Qed.

(** X12: in the skeleton that a run writes for answers without newlines,
    the type declaration lines are, in the order of the answer, one line
    for each type token, binding the token as a name to [create_type] of
    the same token as a label; no other line has that shape. *)
Theorem type_lines_in_order (filename name types predicates actions : str)
        (w : World) :
  nl_free name -> nl_free types -> nl_free predicates -> nl_free actions ->
  answered_with filename name types predicates actions w ->
  exists out,
    left_at filename w = Some (File out) /\
    filter is_type_decl (text_lines out) =
      map type_decl_line (map Py.title (Py.split space (strip types))).
Proof.
  intros Hn Ht Hp Ha Hw.
  exists (skeleton name types predicates actions).
  split; [now apply answered_with_written|].
  unfold skeleton.
  rewrite (text_lines_template (nl_free_class_name_of Hn) (nl_free_types_of Ht)
             (nl_free_predicates_of Hp) (nl_free_actions_of Ha)).
  apply filter_type_decls.
Qed.

Lemma type_lines_in_order_witness :
  exists out,
    left_at (lit "rocket.py") rocket_world = Some (File out) /\
    filter is_type_decl (text_lines out) =
      map type_decl_line (map Py.title (Py.split space (strip (lit "location stage")))).
Proof.
  apply (@type_lines_in_order (lit "rocket.py") (lit "rocket") (lit "location stage")
           (lit "launched docked") (lit "launch") rocket_world);
    try reflexivity.
  repeat split; try reflexivity; [eexists; reflexivity | discriminate].
Defined.

Lemma length_blocks (A : Type) (g : A -> list str) (k : nat) (xs : list A) :
  (forall x, List.length (g x) = k) ->
  xs <> [] ->
  S (List.length (intercalate [blank] (map g xs))) = S k * List.length xs.
Proof.
  intros Hg. induction xs as [|x xs IH]; intros Hne; [contradiction|].
  destruct xs as [|y xs]; [simpl; rewrite Hg; lia|].
  change (intercalate [blank] (map g (x :: y :: xs)))
    with (g x ++ [blank] ++ intercalate [blank] (map g (y :: xs))).
  rewrite !length_app, Hg.
  assert (IH' := IH ltac:(discriminate)).
  cbn [List.length] in *. nia.
Qed.

Lemma length_template_lines (cn : str) (ts ps acts : list str) :
  ps <> [] -> acts <> [] ->
  List.length (template_lines cn ts ps acts) =
    24 + List.length ts + 4 * List.length ps + 7 * List.length acts.
Proof.
  intros Hps Hacts. unfold template_lines. rewrite !length_app, length_map.
  pose proof (@length_blocks str predicate_block_lines 3 ps
                (fun _ => eq_refl) Hps) as HP.
  pose proof (@length_blocks str action_block_lines 6 acts
                (fun _ => eq_refl) Hacts) as HA.
  replace (List.length (domain_header_lines cn)) with 5 by reflexivity.
  replace (List.length (text_lines section_stubs)) with 14 by reflexivity.
  cbn [List.length]. lia.
Qed.

(** X14: the skeleton that a run writes for answers without newlines ends
    with a newline and has 24 lines, plus one for every type token, four
    for every predicate token and seven for every action token. *)
Theorem skeleton_size (filename name types predicates actions : str) (w : World) :
  nl_free name -> nl_free types -> nl_free predicates -> nl_free actions ->
  answered_with filename name types predicates actions w ->
  exists out,
    left_at filename w = Some (File out) /\
    terminated out = true /\
    List.length (text_lines out) =
      24 + List.length (Py.split space (strip types))
         + 4 * List.length (Py.split space (strip predicates))
         + 7 * List.length (Py.split space (strip actions)).
Proof.
  intros Hn Ht Hp Ha Hw.
  exists (skeleton name types predicates actions).
  split; [now apply answered_with_written|].
  unfold skeleton. split.
  - rewrite template_unlines. apply terminated_unlines.
  - rewrite (text_lines_template (nl_free_class_name_of Hn) (nl_free_types_of Ht)
               (nl_free_predicates_of Hp) (nl_free_actions_of Ha)).
    rewrite length_template_lines.
    + unfold types_of, predicates_of, actions_of. now rewrite !length_map.
    + unfold predicates_of. intros E. apply map_eq_nil in E.
      now apply split_nonempty in E.
    + unfold actions_of. intros E. apply map_eq_nil in E.
      now apply split_nonempty in E.
Qed.

Lemma skeleton_size_witness :
  exists out,
    left_at (lit "rocket.py") rocket_world = Some (File out) /\
    terminated out = true /\
    List.length (text_lines out) =
      24 + List.length (Py.split space (strip (lit "location stage")))
         + 4 * List.length (Py.split space (strip (lit "launched docked")))
         + 7 * List.length (Py.split space (strip (lit "launch"))).
Proof.
  apply (@skeleton_size (lit "rocket.py") (lit "rocket") (lit "location stage")
           (lit "launched docked") (lit "launch") rocket_world);
    try reflexivity.
  repeat split; try reflexivity; [eexists; reflexivity | discriminate].
Defined.

End SkeletonProperties.
